(** * Iris prediction service: the serverless handler and the framework app

    A shallow embedding of [cloud_function/main.py] and of
    [module3/milestone2/app/app.py].  Python values are an inductive type,
    Python dictionaries are finite maps, floats are binary64 floats, and
    the two handlers run in a small state / exception / event-log monad:
    the state holds the module globals, the exception is the Python
    exception that unwinds the body, and the log lists the calls made to
    the outside world (joblib, numpy, the classifier). *)

From Stdlib Require Import ZArith String Ascii Floats.PrimFloat.
From stdpp Require Import gmap strings list fin_maps.

Set Warnings "-inexact-float,-register-all".
Set Default Proof Using "Type".

(** ** Python values *)

(** What [request.get_json] hands back and what [jsonify] takes: [None],
    booleans, integers, floats, strings, lists and string-keyed dicts.
    A Python [str] is held as its UTF-8 encoding, one byte per [ascii]
    (a lone surrogate as its three-byte form), so that equality and the
    substring test are those of the bytes, and the length is the number
    of code points, see [str_len]. *)
Inductive pyval : Type :=
  | PyNone
  | PyBool (b : bool)
  | PyInt (z : Z)
  | PyFloat (f : float)
  | PyStr (s : string)
  | PyList (l : list pyval)
  | PyDict (d : gmap string pyval).

(** An instance of Python's [Exception], as the handler of main.py reads
    it: [type(e).__name__] and [str(e)]. *)
Record pyexc : Type := PyExc { exc_type : string; exc_msg : string }.

Inductive result (A : Type) : Type :=
  | Ok (a : A)
  | Raise (e : pyexc).
Arguments Ok {A} a.
Arguments Raise {A} e.

(** [type(v).__name__] *)
Definition type_name (v : pyval) : string :=
  match v with
  | PyNone => "NoneType"
  | PyBool _ => "bool"
  | PyInt _ => "int"
  | PyFloat _ => "float"
  | PyStr _ => "str"
  | PyList _ => "list"
  | PyDict _ => "dict"
  end.

Definition TypeError (msg : string) : pyexc := PyExc "TypeError" msg.
Definition KeyError (msg : string) : pyexc := PyExc "KeyError" msg.
Definition IndexError (msg : string) : pyexc := PyExc "IndexError" msg.

(** [bool(v)]: the truth value tested by [not v]. *)
Definition py_truthy (v : pyval) : bool :=
  match v with
  | PyNone => false
  | PyBool b => b
  | PyInt z => negb (z =? 0)%Z
  | PyFloat f => negb (PrimFloat.eqb f 0%float)
  | PyStr s => negb (String.length s =? 0)%nat
  | PyList l => negb (length l =? 0)%nat
  | PyDict d => negb (size d =? 0)%nat
  end.

(** [needle in hay] on two strings, tested on the encodings: no
    encoding of a code point occurs inside or across the encodings of
    others, so the bytes match exactly where the code points do. *)
Fixpoint is_substring (needle hay : string) : bool :=
  String.prefix needle hay ||
  match hay with
  | EmptyString => false
  | String _ rest => is_substring needle rest
  end.

Definition is_str (key : string) (v : pyval) : bool :=
  match v with
  | PyStr s => String.eqb s key
  | _ => false
  end.

(** [key in v] for a string [key]: key membership on a dict, element
    membership on a list, substring test on a string, [TypeError] on
    everything else. *)
Definition py_contains (key : string) (v : pyval) : result bool :=
  match v with
  | PyDict d => Ok (match d !! key with Some _ => true | None => false end)
  | PyList l => Ok (existsb (is_str key) l)
  | PyStr s => Ok (is_substring key s)
  | _ => Raise (TypeError ("argument of type '" +:+ type_name v +:+ "' is not iterable"))
  end.

(** [v[key]] for a string [key]. *)
Definition py_getitem (v : pyval) (key : string) : result pyval :=
  match v with
  | PyDict d =>
      match d !! key with
      | Some x => Ok x
      | None => Raise (KeyError ("'" +:+ key +:+ "'"))
      end
  | PyList _ => Raise (TypeError "list indices must be integers or slices, not str")
  | PyStr _ => Raise (TypeError "string indices must be integers, not 'str'")
  | _ => Raise (TypeError ("'" +:+ type_name v +:+ "' object is not subscriptable"))
  end.

(** A byte of the form 10xxxxxx continues a code point begun by an
    earlier byte. *)
Definition is_continuation (c : ascii) : bool :=
  match c with
  | Ascii _ _ _ _ _ _ b6 b7 => b7 && negb b6
  end.

(** [len(s)] on a [str]: the number of code points, which is the number
    of bytes of the encoding that do not continue one. *)
Fixpoint str_len (s : string) : nat :=
  match s with
  | EmptyString => 0
  | String c rest =>
      if is_continuation c then str_len rest else Datatypes.S (str_len rest)
  end.

(** [len(v)] *)
Definition py_len (v : pyval) : result Z :=
  match v with
  | PyList l => Ok (Z.of_nat (length l))
  | PyStr s => Ok (Z.of_nat (str_len s))
  | PyDict d => Ok (Z.of_nat (size d))
  | _ => Raise (TypeError ("object of type '" +:+ type_name v +:+ "' has no len()"))
  end.

(** [l[i]] on a list: a negative index counts from the end. *)
Definition py_list_getitem {A : Type} (l : list A) (i : Z) : result A :=
  let n := Z.of_nat (length l) in
  let j := if (i <? 0)%Z then (i + n)%Z else i in
  if (0 <=? j)%Z && (j <? n)%Z then
    match l !! Z.to_nat j with
    | Some x => Ok x
    | None => Raise (IndexError "list index out of range")
    end
  else Raise (IndexError "list index out of range").

(** [sum(ps)] in float arithmetic, and the test [abs(sum(ps) - 1.0) <= 1e-6]. *)
Definition fsum (ps : list float) : float := fold_left PrimFloat.add ps 0%float.

Definition sums_to_one (ps : list float) : bool :=
  PrimFloat.leb (PrimFloat.abs (PrimFloat.sub (fsum ps) 1%float)) 1e-6%float.

(** [os.path.join(dir, name)] for a relative [name]. *)
Definition ends_with_slash (s : string) : bool :=
  match rev (list_ascii_of_string s) with
  | c :: _ => Ascii.eqb c "/"%char
  | [] => false
  end.

Definition os_path_join (dir name : string) : string :=
  if (String.length dir =? 0)%nat then name
  else if ends_with_slash dir then dir +:+ name
  else dir +:+ "/" +:+ name.

(** ** The runtime: classifier, outside calls, and the handler monad *)

Section Runtime.
Context {ndarray : Type}.

(** The unpickled estimator, opaque to both programs.  [clf_predict a]
    stands for [int(clf.predict(a)[0])] and [clf_predict_proba a] for
    [clf.predict_proba(a)[0].tolist()]; either may raise. *)
Record Classifier : Type := {
  clf_predict : ndarray -> result Z;
  clf_predict_proba : ndarray -> result (list float)
}.

(** The world outside the two modules: numpy's array constructor, the
    artifact that [joblib.load] reads, and the directory of the module
    file ([os.path.dirname(__file__)], [Path(__file__).parent]).  An
    artifact that loads holds an estimator object (not [None]); the
    artifact and the estimator do not change while the process runs. *)
Record Env : Type := {
  np_array : pyval -> result ndarray;
  joblib_load : string -> result Classifier;
  module_dir : string
}.

(** Calls that leave the module, in the order they are made. *)
Inductive event : Type :=
  | EvLoadModel
  | EvJoblibLoad (path : string)
  | EvNpArray (arg : pyval)
  | EvPredict (a : ndarray)
  | EvPredictProba (a : ndarray).

Definition is_joblib_load (ev : event) : bool :=
  match ev with EvJoblibLoad _ => true | _ => false end.

Definition is_inference (ev : event) : bool :=
  match ev with
  | EvNpArray _ | EvPredict _ | EvPredictProba _ => true
  | _ => false
  end.

(** A computation over module globals [S]: its outcome, the globals
    afterwards and the calls it made. *)
Definition M (S A : Type) : Type := S -> result A * S * list event.

Definition ret {S A} (a : A) : M S A := fun s => (Ok a, s, []).

Definition bind {S A B} (m : M S A) (k : A -> M S B) : M S B := fun s =>
  match m s with
  | (Ok a, s1, ev1) =>
      match k a s1 with
      | (r, s2, ev2) => (r, s2, ev1 ++ ev2)
      end
  | (Raise e, s1, ev1) => (Raise e, s1, ev1)
  end.

Definition lift {S A} (r : result A) : M S A := fun s => (r, s, []).

Definition emit {S} (ev : event) : M S unit := fun s => (Ok tt, s, [ev]).

Definition get {S} : M S S := fun s => (Ok s, s, []).

Definition put {S} (s' : S) : M S unit := fun _ => (Ok tt, s', []).

(** An outside call: logged, then its outcome. *)
Definition call {S A} (ev : event) (r : result A) : M S A :=
  bind (emit ev) (fun _ => lift r).

(** [try: m  except Exception as e: h e] *)
Definition try_except {S A} (m : M S A) (h : pyexc -> M S A) : M S A := fun s =>
  match m s with
  | (Ok a, s1, ev1) => (Ok a, s1, ev1)
  | (Raise e, s1, ev1) =>
      match h e s1 with
      | (r, s2, ev2) => (r, s2, ev1 ++ ev2)
      end
  end.

(** The computations [ms] run one after the other, as a process does
    with the requests it serves: the outcomes in order, the final
    globals, all calls made. *)
Fixpoint run_all {S A} (ms : list (M S A)) (s : S)
  : list (result A) * S * list event :=
  match ms with
  | [] => ([], s, [])
  | m :: ms' =>
      match m s with
      | (r, s1, ev1) =>
          match run_all ms' s1 with
          | (rs, s2, ev2) => (r :: rs, s2, ev1 ++ ev2)
          end
      end
  end.
End Runtime.

(** The three components of a run. *)
Definition outcome {R S E : Type} (x : R * S * E) : R := x.1.1.
Definition globals_after {R S E : Type} (x : R * S * E) : S := x.1.2.
Definition calls {R S E : Type} (x : R * S * E) : E := x.2.

Arguments Classifier ndarray : clear implicits.
Arguments Env ndarray : clear implicits.
Arguments event ndarray : clear implicits.
Arguments M ndarray S A : clear implicits.

Notation "'let*' x ':=' m 'in' k" := (bind m (fun x => k))
  (at level 10, x name, m at level 100, k at level 200).

(** ** The HTTP values of the serverless handler *)

(** The first component of the returned tuple: the empty string of the
    preflight answer, or [jsonify(v)]. *)
Inductive body_t : Type :=
  | Text (s : string)
  | Jsonify (v : pyval).

(** The tuple [(body, status, headers)] the handler returns. *)
Record response : Type := {
  body : body_t;
  status : Z;
  headers : gmap string string
}.

(** What the handler reads of [flask.Request]: [request.method] and
    [request.get_json(silent=True)], which is [None] when the body is
    absent or is not JSON. *)
Record request : Type := {
  method : string;
  get_json : pyval
}.

(** ** cloud_function/main.py *)

Module cloud_function.
Section main.
Context {ndarray : Type} (env : Env ndarray).

(** The module global [model], [None] until the first load. *)
Record globals : Type := { model : option (Classifier ndarray) }.

(** [load_model()] *)
Definition load_model : M ndarray globals (Classifier ndarray) :=
  let* _ := emit EvLoadModel in
  let* g := get in
  match model g with
  | None =>
      let model_path := os_path_join (module_dir env) "model.pkl" in
      let* clf := call (EvJoblibLoad model_path) (joblib_load env model_path) in
      let* _ := put {| model := Some clf |} in
      ret clf
  | Some clf => ret clf
  end.

Definition preflight_headers : gmap string string :=
  {[ "Access-Control-Allow-Origin" := "*";
     "Access-Control-Allow-Methods" := "POST";
     "Access-Control-Allow-Headers" := "Content-Type";
     "Access-Control-Max-Age" := "3600" ]}.

Definition cors_headers : gmap string string :=
  {[ "Access-Control-Allow-Origin" := "*" ]}.

Definition class_names : list string := ["setosa"; "versicolor"; "virginica"].

(** Lines 48-51. *)
Definition missing_features_response : response :=
  {| body := Jsonify (PyDict
       {[ "error" := PyStr "Missing features in request body";
          "expected_format" := PyDict
            {[ "features" := PyList [PyFloat 5.1; PyFloat 3.5; PyFloat 1.4; PyFloat 0.2] ]} ]});
     status := 400;
     headers := cors_headers |}.

(** Lines 57-60. *)
Definition wrong_length_response (received : Z) : response :=
  {| body := Jsonify (PyDict
       {[ "error" := PyStr "Features must contain exactly 4 values";
          "received" := PyInt received ]});
     status := 400;
     headers := cors_headers |}.

(** Lines 74-80. *)
Definition prediction_response (prediction : Z) (class_name : string)
    (probabilities : list float) : response :=
  {| body := Jsonify (PyDict
       {[ "prediction" := PyInt prediction;
          "class_name" := PyStr class_name;
          "probabilities" := PyList (PyFloat <$> probabilities) ]});
     status := 200;
     headers := cors_headers |}.

(** Lines 83-86. *)
Definition error_response (e : pyexc) : response :=
  {| body := Jsonify (PyDict
       {[ "error" := PyStr (exc_msg e);
          "type" := PyStr (exc_type e) ]});
     status := 500;
     headers := cors_headers |}.

(** Lines 62-80: load, convert, infer, look the name up, answer. *)
Definition run_inference (features : pyval) : M ndarray globals response :=
  let* clf := load_model in
  let* features_array :=
    call (EvNpArray (PyList [features])) (np_array env (PyList [features])) in
  let* prediction := call (EvPredict features_array) (clf_predict clf features_array) in
  let* probabilities :=
    call (EvPredictProba features_array) (clf_predict_proba clf features_array) in
  let* class_name := lift (py_list_getitem class_names prediction) in
  ret (prediction_response prediction class_name probabilities).

(** Line 47: [not request_json or 'features' not in request_json]. *)
Definition features_missing (request_json : pyval) : result bool :=
  if negb (py_truthy request_json) then Ok true
  else
    match py_contains "features" request_json with
    | Ok b => Ok (negb b)
    | Raise e => Raise e
    end.

(** Lines 44-80: the body of the [try]. *)
Definition predict_try (request : request) : M ndarray globals response :=
  let request_json := get_json request in
  let* missing := lift (features_missing request_json) in
  if missing then ret missing_features_response
  else
    let* features := lift (py_getitem request_json "features") in
    let* received := lift (py_len features) in
    if negb (received =? 4)%Z then ret (wrong_length_response received)
    else run_inference features.

(** [predict(request)] *)
Definition predict (request : request) : M ndarray globals response :=
  if String.eqb (method request) "OPTIONS" then
    ret {| body := Text EmptyString; status := 204; headers := preflight_headers |}
  else
    try_except (predict_try request) (fun e => ret (error_response e)).
End main.
End cloud_function.

(** ** module3/milestone2/app/app.py *)

Module app.
Section app.
Context {ndarray : Type} (env : Env ndarray).

(** The request schema: a list of floats under [features]. *)
Record PredictionRequest : Type := { features : list float }.

(** The response schema: an int, a str and a list of floats. *)
Record PredictionResponse : Type := {
  prediction : Z;
  class_name : string;
  probabilities : list float
}.

(** The module global [model], bound when the module is imported. *)
Record globals : Type := { model : Classifier ndarray }.

Definition MODEL_PATH : string := os_path_join (module_dir env) "model.pkl".

(** Lines 12-13, run once when the process imports the module. *)
Definition startup : result globals * list (event ndarray) :=
  match joblib_load env MODEL_PATH with
  | Ok clf => (Ok {| model := clf |}, [EvJoblibLoad MODEL_PATH])
  | Raise e => (Raise e, [EvJoblibLoad MODEL_PATH])
  end.

Definition root : gmap string pyval :=
  {[ "message" := PyStr "Iris Classification API is running" ]}.

Definition health : gmap string pyval :=
  {[ "status" := PyStr "healthy" ]}.

Definition class_names : list string := ["setosa"; "versicolor"; "virginica"].

(** [predict(request)]: the returned dict, or the exception it lets
    through (the function has no handler). *)
Definition predict (request : PredictionRequest) : M ndarray globals (gmap string pyval) :=
  let arg := PyList [PyList (PyFloat <$> features request)] in
  let* features := call (EvNpArray arg) (np_array env arg) in
  let* g := get in
  let* prediction := call (EvPredict features) (clf_predict (model g) features) in
  let* g' := get in
  let* probabilities :=
    call (EvPredictProba features) (clf_predict_proba (model g') features) in
  let* class_name := lift (py_list_getitem class_names prediction) in
  ret ({[ "prediction" := PyInt prediction;
          "class_name" := PyStr class_name;
          "probabilities" := PyList (PyFloat <$> probabilities) ]} : gmap string pyval).
End app.
End app.

(** ** Sample environments *)

Module sample.
(** Arrays are kept as the data they were built from. *)
Definition keep_data (v : pyval) : result pyval := Ok v.

Definition as_float (v : pyval) : option float :=
  match v with
  | PyFloat f => Some f
  | _ => None
  end.

(** The single row of a [1 x n] array of floats. *)
Definition row_of (a : pyval) : option (list float) :=
  match a with
  | PyList [PyList l] => mapM as_float l
  | _ => None
  end.

Definition ValueError (msg : string) : pyexc := PyExc "ValueError" msg.

Definition wrong_width : pyexc :=
  ValueError "X has a different number of features than the 4 the estimator was fitted with".

Definition not_numeric : pyexc :=
  ValueError "could not convert string to float".

(** A two-split decision tree on petal length and petal width, which,
    as a fitted estimator does, refuses rows that are not 4 wide. *)
Definition tree_class (a : pyval) : result Z :=
  match row_of a with
  | Some [_; _; petal_length; petal_width] =>
      if PrimFloat.ltb petal_length 2.45 then Ok 0%Z
      else if PrimFloat.ltb petal_width 1.75 then Ok 1%Z
      else Ok 2%Z
  | Some _ => Raise wrong_width
  | None => Raise not_numeric
  end.

Definition one_hot (c : Z) : list float :=
  [ if (c =? 0)%Z then 1%float else 0%float;
    if (c =? 1)%Z then 1%float else 0%float;
    if (c =? 2)%Z then 1%float else 0%float ].

Definition tree : Classifier pyval :=
  {| clf_predict := tree_class;
     clf_predict_proba := fun a =>
       match tree_class a with
       | Ok c => Ok (one_hot c)
       | Raise e => Raise e
       end |}.

(** An estimator whose label set is not 0..2: it answers [c] whatever
    the row. *)
Definition constant (c : Z) : Classifier pyval :=
  {| clf_predict := fun _ => Ok c;
     clf_predict_proba := fun _ => Ok [0.2%float; 0.3%float; 0.5%float] |}.

Definition env_with (clf : Classifier pyval) : Env pyval :=
  {| np_array := keep_data;
     joblib_load := fun _ => Ok clf;
     module_dir := "/workspace" |}.

(** The deployment whose artifact is missing. *)
Definition env_missing : Env pyval :=
  {| np_array := keep_data;
     joblib_load := fun path =>
       Raise (PyExc "FileNotFoundError"
                ("[Errno 2] No such file or directory: '" +:+ path +:+ "'"));
     module_dir := "/workspace" |}.

(** The deployment whose artifact holds the tree. *)
Definition env : Env pyval := env_with tree.

(** The serverless globals of a fresh process, and after a load. *)
Definition unloaded : cloud_function.globals (ndarray := pyval) :=
  {| cloud_function.model := None |}.

Definition loaded : cloud_function.globals (ndarray := pyval) :=
  {| cloud_function.model := Some tree |}.

(** The framework app's globals once the module is imported. *)
Definition imported (clf : Classifier pyval) : app.globals (ndarray := pyval) :=
  {| app.model := clf |}.

Definition post (v : pyval) : request := {| method := "POST"; get_json := v |}.

Definition features_body (v : pyval) : pyval := PyDict {[ "features" := v ]}.

Definition setosa_row : list float := [5.1%float; 3.5%float; 1.4%float; 0.2%float].
End sample.

(** ** Notions used by the statements *)

(** Bodies in which the serverless handler finds no [features]: no JSON
    at all, an object without the key, an array without that string, a
    string without that substring, and the falsy scalars. *)
Inductive lacks_features : pyval -> Prop :=
  | lacks_no_json : lacks_features PyNone
  | lacks_object d : d !! "features" = None -> lacks_features (PyDict d)
  | lacks_array l :
      Forall (fun v => v <> PyStr "features") l -> lacks_features (PyList l)
  | lacks_string s :
      is_substring "features" s = false -> lacks_features (PyStr s)
  | lacks_false : lacks_features (PyBool false)
  | lacks_zero : lacks_features (PyInt 0)
  | lacks_float_zero f : PrimFloat.eqb f 0 = true -> lacks_features (PyFloat f).

(** The classifier a request would use from globals [g]: the cached one,
    or else the one the artifact holds. *)
Definition resolves {ndarray : Type} (env : Env ndarray)
    (g : cloud_function.globals) (clf : Classifier ndarray) : Prop :=
  cloud_function.model g = Some clf \/
  (cloud_function.model g = None /\
   joblib_load env (os_path_join (module_dir env) "model.pkl") = Ok clf).

(** Number of deserialisations in a log. *)
Definition joblib_loads {ndarray : Type} (evs : list (event ndarray)) : nat :=
  length (filter (fun ev => is_joblib_load ev = true) evs).

(** What the spec asks of a prediction result held in the dict [b]: a
    class index among 0, 1, 2 and three probabilities that sum to one
    within 1e-6. *)
Definition valid_result (b : gmap string pyval) : Prop :=
  exists (p : Z) (ps : list float),
    b !! "prediction" = Some (PyInt p) /\
    (p = 0 \/ p = 1 \/ p = 2)%Z /\
    b !! "probabilities" = Some (PyList (PyFloat <$> ps)) /\
    length ps = 3%nat /\
    sums_to_one ps = true.

(** A list of Python floats, read as such (no coercion). *)
Definition py_floats (l : list pyval) : option (list float) :=
  mapM (fun v => match v with PyFloat f => Some f | _ => None end) l.

(** A dict read as the response schema of app.py declares it: an int
    under "prediction", a str under "class_name" and a list of floats
    under "probabilities". *)
Definition as_PredictionResponse (b : gmap string pyval)
  : option app.PredictionResponse :=
  match b !! "prediction", b !! "class_name", b !! "probabilities" with
  | Some (PyInt p), Some (PyStr c), Some (PyList l) =>
      match py_floats l with
      | Some ps =>
          Some {| app.prediction := p; app.class_name := c;
                  app.probabilities := ps |}
      | None => None
      end
  | _, _, _ => None
  end.

(** ** Properties *)

(** Unfolds the monad down to pairs. *)
Ltac unfold_M :=
  unfold try_except, call, bind, ret, lift, emit, get, put,
    outcome, globals_after, calls in *.

(** Splits every pending [Ok]/[Raise] test of the goal. *)
Ltac destruct_results :=
  repeat match goal with
         | |- context [ match ?x with Ok _ => _ | Raise _ => _ end ] => destruct x
         end.

Section Properties.
Context {ndarray : Type} (env : Env ndarray).

Local Abbreviation cf_globals := (cloud_function.globals (ndarray := ndarray)).
Local Abbreviation model_path := (os_path_join (module_dir env) "model.pkl").

(** *** [load_model], case by case *)

Lemma load_model_cached (g : cf_globals) clf :
  cloud_function.model g = Some clf ->
  cloud_function.load_model env g = (Ok clf, g, [EvLoadModel]).
Proof.
  intros Hg. unfold cloud_function.load_model. unfold_M. simpl.
  rewrite Hg. reflexivity.
Qed.

Lemma load_model_fresh (g : cf_globals) clf :
  cloud_function.model g = None ->
  joblib_load env model_path = Ok clf ->
  cloud_function.load_model env g =
    (Ok clf, {| cloud_function.model := Some clf |},
     [EvLoadModel; EvJoblibLoad model_path]).
Proof.
  intros Hg Hload. unfold cloud_function.load_model. unfold_M. simpl.
  rewrite Hg. simpl. rewrite Hload. reflexivity.
Qed.

Lemma load_model_fails (g : cf_globals) e :
  cloud_function.model g = None ->
  joblib_load env model_path = Raise e ->
  cloud_function.load_model env g =
    (Raise e, g, [EvLoadModel; EvJoblibLoad model_path]).
Proof.
  intros Hg Hload. unfold cloud_function.load_model. unfold_M. simpl.
  rewrite Hg. simpl. rewrite Hload. reflexivity.
Qed.

Lemma load_model_resolves (g : cf_globals) clf :
  resolves env g clf ->
  exists evs,
    cloud_function.load_model env g =
      (Ok clf, {| cloud_function.model := Some clf |}, EvLoadModel :: evs)
    /\ Forall (fun ev => is_inference ev = false) evs.
Proof.
  intros [Hg | [Hg Hload]].
  - exists []. rewrite (load_model_cached g clf Hg).
    destruct g as [m]; simpl in Hg; subst m. split; [reflexivity | constructor].
  - exists [EvJoblibLoad model_path].
    rewrite (load_model_fresh g clf Hg Hload).
    split; [reflexivity | repeat constructor].
Qed.

Lemma load_model_first_call (g : cf_globals) :
  exists evs, calls (cloud_function.load_model env g) = EvLoadModel :: evs.
Proof.
  destruct (cloud_function.model g) as [clf|] eqn:Hg.
  - rewrite (load_model_cached g clf Hg). by exists [].
  - destruct (joblib_load env model_path) as [clf|e] eqn:Hload.
    + rewrite (load_model_fresh g clf Hg Hload). by eexists.
    + rewrite (load_model_fails g e Hg Hload). by eexists.
Qed.

(** *** The inference block and the [try] body, as case tables *)

Lemma run_inference_cases features (g : cf_globals) :
  cloud_function.run_inference env features g =
  match cloud_function.load_model env g with
  | (Raise e, g1, ev1) => (Raise e, g1, ev1)
  | (Ok clf, g1, ev1) =>
      let arg := PyList [features] in
      match np_array env arg with
      | Raise e => (Raise e, g1, ev1 ++ [EvNpArray arg])
      | Ok a =>
          match clf_predict clf a with
          | Raise e => (Raise e, g1, ev1 ++ [EvNpArray arg; EvPredict a])
          | Ok p =>
              let evs := ev1 ++ [EvNpArray arg; EvPredict a; EvPredictProba a] in
              match clf_predict_proba clf a with
              | Raise e => (Raise e, g1, evs)
              | Ok ps =>
                  match py_list_getitem cloud_function.class_names p with
                  | Raise e => (Raise e, g1, evs)
                  | Ok name =>
                      (Ok (cloud_function.prediction_response p name ps), g1, evs)
                  end
              end
          end
      end
  end.
Proof.
  unfold cloud_function.run_inference. unfold_M.
  destruct (cloud_function.load_model env g) as [[[clf|e] g1] ev1]; [|reflexivity].
  simpl.
  destruct (np_array env _) as [a|e]; [|reflexivity].
  destruct (clf_predict clf a) as [p|e]; [|reflexivity].
  destruct (clf_predict_proba clf a) as [ps|e]; [|reflexivity].
  destruct (py_list_getitem _ p) as [name|e]; reflexivity.
Qed.

Lemma predict_try_cases request (g : cf_globals) :
  cloud_function.predict_try env request g =
  match cloud_function.features_missing (get_json request) with
  | Raise e => (Raise e, g, [])
  | Ok true => (Ok cloud_function.missing_features_response, g, [])
  | Ok false =>
      match py_getitem (get_json request) "features" with
      | Raise e => (Raise e, g, [])
      | Ok features =>
          match py_len features with
          | Raise e => (Raise e, g, [])
          | Ok received =>
              if negb (received =? 4)%Z
              then (Ok (cloud_function.wrong_length_response received), g, [])
              else cloud_function.run_inference env features g
          end
      end
  end.
Proof.
  unfold cloud_function.predict_try. unfold_M.
  destruct (cloud_function.features_missing _) as [[|]|e]; try reflexivity.
  destruct (py_getitem _ _) as [v|e]; [|reflexivity].
  destruct (py_len v) as [n|e]; [|reflexivity].
  destruct (negb _); [reflexivity|].
  by destruct (cloud_function.run_inference env v g) as [[r g1] ev1].
Qed.

Lemma predict_cases request (g : cf_globals) :
  String.eqb (method request) "OPTIONS" = false ->
  cloud_function.predict env request g =
  match cloud_function.predict_try env request g with
  | (Ok r, g1, evs) => (Ok r, g1, evs)
  | (Raise e, g1, evs) => (Ok (cloud_function.error_response e), g1, evs)
  end.
Proof.
  intros Hm. unfold cloud_function.predict. rewrite Hm. unfold_M.
  destruct (cloud_function.predict_try env request g) as [[[r|e] g1] evs];
    [reflexivity|].
  by rewrite app_nil_r.
Qed.

Lemma run_inference_calls_load_model features (g : cf_globals) :
  exists evs,
    calls (cloud_function.run_inference env features g) = EvLoadModel :: evs.
Proof.
  destruct (load_model_first_call g) as [evs Hevs].
  rewrite run_inference_cases. unfold calls in *.
  destruct (cloud_function.load_model env g) as [[[clf|e] g1] ev1];
    simpl in Hevs; subst ev1; [|by eexists].
  cbv zeta.
  repeat match goal with
         | |- context [ match ?x with Ok _ => _ | Raise _ => _ end ] => destruct x
         end; simpl; by eexists.
Qed.

Lemma run_inference_status features (g : cf_globals) r :
  outcome (cloud_function.run_inference env features g) = Ok r ->
  status r = 200%Z.
Proof.
  rewrite run_inference_cases. unfold outcome.
  destruct (cloud_function.load_model env g) as [[[clf|e] g1] ev1];
    [|discriminate].
  cbv zeta.
  repeat match goal with
         | |- context [ match ?x with Ok _ => _ | Raise _ => _ end ] => destruct x
         end; simpl; try discriminate.
  by intros [= <-].
Qed.

(** A 400 answer of the [try] body is one of the two validation answers,
    given before anything is loaded or called. *)
Lemma predict_try_400 request (g : cf_globals) r :
  outcome (cloud_function.predict_try env request g) = Ok r ->
  status r = 400%Z ->
  cloud_function.predict_try env request g = (Ok r, g, []).
Proof.
  rewrite predict_try_cases.
  destruct (cloud_function.features_missing _) as [[|]|e].
  - by intros [= <-] _.
  - destruct (py_getitem _ _) as [v|e]; [|discriminate].
    destruct (py_len v) as [n|e]; [|discriminate].
    destruct (negb _).
    + by intros [= <-] _.
    + intros Hok Hst. apply run_inference_status in Hok. lia.
  - discriminate.
Qed.

(** *** Validation *)

Lemma is_str_true key v : is_str key v = true <-> v = PyStr key.
Proof.
  destruct v; simpl; try (split; [discriminate | intros [=]]).
  rewrite String.eqb_eq. split; [intros -> | intros [= ->]]; reflexivity.
Qed.

Lemma existsb_is_str_false key (l : list pyval) :
  Forall (fun v => v <> PyStr key) l -> existsb (is_str key) l = false.
Proof.
  induction 1 as [|v l Hv _ IH]; simpl; [reflexivity|].
  rewrite IH, orb_false_r.
  destruct (is_str key v) eqn:E; [|reflexivity].
  apply is_str_true in E. contradiction.
Qed.

Lemma features_missing_lacks v :
  lacks_features v -> cloud_function.features_missing v = Ok true.
Proof.
  unfold cloud_function.features_missing.
  destruct 1 as [|d Hd|l Hl|s Hs| | |f Hf]; simpl; try reflexivity.
  - rewrite Hd. by destruct (negb (negb _)).
  - rewrite (existsb_is_str_false _ _ Hl). by destruct (negb (negb _)).
  - rewrite Hs. by destruct (negb (negb _)).
  - by rewrite Hf.
Qed.

Lemma features_missing_present (d : gmap string pyval) v :
  d !! "features" = Some v ->
  cloud_function.features_missing (PyDict d) = Ok false.
Proof.
  intros Hd. unfold cloud_function.features_missing. simpl.
  destruct (size d =? 0)%nat eqn:Hsz.
  - apply Nat.eqb_eq, map_size_empty_iff in Hsz. subst d.
    rewrite lookup_empty in Hd. discriminate.
  - simpl. by rewrite Hd.
Qed.

Lemma app_predict_cases (request : app.PredictionRequest) (g : app.globals) :
  app.predict env request g =
  let arg := PyList [PyList (PyFloat <$> app.features request)] in
  match np_array env arg with
  | Raise e => (Raise e, g, [EvNpArray arg])
  | Ok a =>
      match clf_predict (app.model g) a with
      | Raise e => (Raise e, g, [EvNpArray arg; EvPredict a])
      | Ok p =>
          let evs := [EvNpArray arg; EvPredict a; EvPredictProba a] in
          match clf_predict_proba (app.model g) a with
          | Raise e => (Raise e, g, evs)
          | Ok ps =>
              match py_list_getitem app.class_names p with
              | Raise e => (Raise e, g, evs)
              | Ok name =>
                  (Ok {[ "prediction" := PyInt p;
                         "class_name" := PyStr name;
                         "probabilities" := PyList (PyFloat <$> ps) ]}, g, evs)
              end
          end
      end
  end.
Proof.
  unfold app.predict. unfold_M. cbv zeta.
  destruct (np_array env _) as [a|e]; [|reflexivity].
  simpl.
  destruct (clf_predict (app.model g) a) as [p|e]; [|reflexivity].
  destruct (clf_predict_proba (app.model g) a) as [ps|e]; [|reflexivity].
  destruct (py_list_getitem _ p) as [name|e]; reflexivity.
Qed.

(** *** The claims on validation *)

(** C9: in the serverless handler a request answered with 400 made no
    call at all, so [load_model] was never entered, and the module
    global [model] is what it was before the request. *)
Theorem validation_error_leaves_cache request (g : cf_globals) r :
  outcome (cloud_function.predict env request g) = Ok r ->
  status r = 400%Z ->
  calls (cloud_function.predict env request g) = [] /\
  globals_after (cloud_function.predict env request g) = g.
Proof.
  destruct (String.eqb (method request) "OPTIONS") eqn:Hm.
  - unfold cloud_function.predict. rewrite Hm. unfold_M. simpl.
    intros [= <-]. discriminate.
  - rewrite (predict_cases request g Hm).
    destruct (cloud_function.predict_try env request g) as [[[r'|e] g1] evs] eqn:Htry.
    + unfold outcome. simpl. intros [= ->] Hst.
      assert (Hout : outcome (cloud_function.predict_try env request g) = Ok r)
        by (rewrite Htry; reflexivity).
      pose proof (predict_try_400 request g r Hout Hst) as Heq.
      rewrite Htry in Heq. by injection Heq as -> ->.
    + unfold outcome. simpl. intros [= <-]. discriminate.
Qed.

(** The framework app's [predict] has no length check: whatever the
    length of the list, it converts it and, when that succeeds, calls
    the classifier. *)
Lemma app_predict_calls_classifier (request : app.PredictionRequest)
    (g : app.globals) :
  let arg := PyList [PyList (PyFloat <$> app.features request)] in
  exists evs,
    calls (app.predict env request g) = EvNpArray arg :: evs /\
    forall a, np_array env arg = Ok a -> exists evs', evs = EvPredict a :: evs'.
Proof.
  intros arg. rewrite app_predict_cases. fold arg. cbv zeta.
  destruct (np_array env arg) as [a|e] eqn:Ha.
  - destruct_results; eexists; (split; [reflexivity|]);
      intros a' [= <-]; by eexists.
  - eexists. split; [reflexivity|]. intros a' [=].
Qed.

(** C1 (amended): the serverless handler answers a request whose
    [features] value has a length other than 4 with 400, the message
    "Features must contain exactly 4 values" and the received length,
    without loading the model or calling numpy or the classifier: the
    log of calls is empty and the globals are untouched. *)
Theorem wrong_length_rejected request (g : cf_globals)
    (d : gmap string pyval) v n :
  String.eqb (method request) "OPTIONS" = false ->
  get_json request = PyDict d ->
  d !! "features" = Some v ->
  py_len v = Ok n ->
  n <> 4%Z ->
  cloud_function.predict env request g =
    (Ok {| body := Jsonify (PyDict
             {[ "error" := PyStr "Features must contain exactly 4 values";
                "received" := PyInt n ]});
           status := 400;
           headers := cloud_function.cors_headers |}, g, []).
Proof.
  intros Hm Hjson Hd Hlen Hn.
  rewrite (predict_cases request g Hm), predict_try_cases, Hjson.
  rewrite (features_missing_present d v Hd). simpl. rewrite Hd, Hlen.
  assert ((n =? 4)%Z = false) as -> by lia. reflexivity.
Qed.

(** C3 (amended): the serverless handler answers a request with no JSON
    body, or whose body is an object, array or string that does not
    contain [features], or a falsy scalar, with 400 and the message
    "Missing features in request body"; nothing is loaded or called. *)
Theorem missing_features_rejected request (g : cf_globals) :
  String.eqb (method request) "OPTIONS" = false ->
  lacks_features (get_json request) ->
  exists b : gmap string pyval,
    cloud_function.predict env request g =
      (Ok {| body := Jsonify (PyDict b); status := 400;
             headers := cloud_function.cors_headers |}, g, [])
    /\ b !! "error" = Some (PyStr "Missing features in request body").
Proof.
  intros Hm Hlacks.
  rewrite (predict_cases request g Hm), predict_try_cases.
  rewrite (features_missing_lacks _ Hlacks).
  eexists. split; reflexivity.
Qed.

(** C8: the serverless validation looks at the length only.  Whatever
    the value under [features] is, if its length is 4 the request is not
    answered with 400: [load_model] is entered, and once a classifier is
    at hand the value is handed to numpy and, when the conversion
    succeeds, to the classifier. *)
Theorem length_four_forwarded request (g : cf_globals) (d : gmap string pyval) v :
  String.eqb (method request) "OPTIONS" = false ->
  get_json request = PyDict d ->
  d !! "features" = Some v ->
  py_len v = Ok 4%Z ->
  let run := cloud_function.predict env request g in
  (exists r, outcome run = Ok r /\ status r <> 400%Z) /\
  (exists evs, calls run = EvLoadModel :: evs) /\
  (forall clf, resolves env g clf ->
     EvNpArray (PyList [v]) ∈ calls run /\
     forall a, np_array env (PyList [v]) = Ok a -> EvPredict a ∈ calls run).
Proof.
  intros Hm Hjson Hd Hlen run. subst run.
  rewrite (predict_cases request g Hm), predict_try_cases, Hjson.
  rewrite (features_missing_present d v Hd). simpl. rewrite Hd, Hlen. simpl.
  split; [|split].
  - destruct (cloud_function.run_inference env v g) as [[[r|e] g1] evs] eqn:Hrun.
    + exists r. split; [reflexivity|].
      pose proof (run_inference_status v g r) as Hs. rewrite Hrun in Hs.
      specialize (Hs eq_refl). lia.
    + eexists. split; [reflexivity|]. simpl. lia.
  - destruct (run_inference_calls_load_model v g) as [evs Hevs].
    destruct (cloud_function.run_inference env v g) as [[[r|e] g1] evs1];
      unfold calls in *; simpl in *; by eexists.
  - intros clf Hres. rewrite run_inference_cases.
    destruct (load_model_resolves g clf Hres) as (evs & -> & _). cbv zeta.
    split.
    + repeat match goal with
             | |- context [ match ?x with Ok _ => _ | Raise _ => _ end ] => destruct x
             end; unfold calls; simpl; set_solver.
    + intros a ->.
      repeat match goal with
             | |- context [ match ?x with Ok _ => _ | Raise _ => _ end ] => destruct x
             end; unfold calls; simpl; set_solver.
Qed.

(** *** The catch-all handler *)


(** *** The result *)

Lemma py_list_getitem_nonneg {A} (l : list A) (i : Z) x :
  py_list_getitem l i = Ok x -> (0 <= i)%Z -> l !! Z.to_nat i = Some x.
Proof.
  unfold py_list_getitem. intros H Hi.
  assert ((i <? 0)%Z = false) as Hneg by lia. rewrite Hneg in H.
  destruct (_ && _); [|discriminate].
  destruct (l !! Z.to_nat i); [|discriminate].
  by injection H as ->.
Qed.

Lemma run_inference_ok features (g : cf_globals) r :
  outcome (cloud_function.run_inference env features g) = Ok r ->
  exists p name ps,
    r = cloud_function.prediction_response p name ps /\
    py_list_getitem cloud_function.class_names p = Ok name.
Proof.
  rewrite run_inference_cases. unfold outcome.
  destruct (cloud_function.load_model env g) as [[[clf|e] g1] ev1];
    [|discriminate].
  cbv zeta.
  destruct (np_array env _) as [a|e]; [|discriminate].
  destruct (clf_predict clf a) as [p|e]; [|discriminate].
  destruct (clf_predict_proba clf a) as [ps|e]; [|discriminate].
  destruct (py_list_getitem _ p) as [name|e] eqn:Hname; [|discriminate].
  simpl. intros [= <-]. by exists p, name, ps.
Qed.

(** A 200 answer is a prediction built by the inference block. *)
Lemma predict_200 request (g : cf_globals) r :
  outcome (cloud_function.predict env request g) = Ok r ->
  status r = 200%Z ->
  exists p name ps,
    r = cloud_function.prediction_response p name ps /\
    py_list_getitem cloud_function.class_names p = Ok name.
Proof.
  destruct (String.eqb (method request) "OPTIONS") eqn:Hm.
  - unfold cloud_function.predict. rewrite Hm. unfold_M. simpl.
    intros [= <-]. discriminate.
  - rewrite (predict_cases request g Hm), predict_try_cases.
    destruct (cloud_function.features_missing _) as [[|]|e];
      try (unfold outcome; simpl; intros [= <-]; discriminate).
    destruct (py_getitem _ _) as [v|e];
      try (unfold outcome; simpl; intros [= <-]; discriminate).
    destruct (py_len v) as [n|e];
      try (unfold outcome; simpl; intros [= <-]; discriminate).
    destruct (negb _);
      try (unfold outcome; simpl; intros [= <-]; discriminate).
    destruct (cloud_function.run_inference env v g) as [[[r'|e] g1] evs] eqn:Hrun;
      try (unfold outcome; simpl; intros [= <-]; discriminate).
    unfold outcome. simpl. intros [= ->] _.
    apply (run_inference_ok v g). by rewrite Hrun.
Qed.

(** C7: in every 200 answer of the serverless handler, and in every dict
    the framework app's [predict] returns, the class name is what the
    subscript [class_names[prediction]] gives on the table
    ["setosa", "versicolor", "virginica"]; for a prediction that is not
    negative that is the entry at that position. *)
Theorem class_name_matches_prediction :
  (forall request (g : cf_globals) r,
     outcome (cloud_function.predict env request g) = Ok r ->
     status r = 200%Z ->
     exists (b : gmap string pyval) p name,
       body r = Jsonify (PyDict b) /\
       b !! "prediction" = Some (PyInt p) /\
       b !! "class_name" = Some (PyStr name) /\
       py_list_getitem ["setosa"; "versicolor"; "virginica"] p = Ok name /\
       ((0 <= p)%Z ->
        ["setosa"; "versicolor"; "virginica"] !! Z.to_nat p = Some name))
  /\
  (forall (request : app.PredictionRequest) (g : app.globals) (b : gmap string pyval),
     outcome (app.predict env request g) = Ok b ->
     exists p name,
       b !! "prediction" = Some (PyInt p) /\
       b !! "class_name" = Some (PyStr name) /\
       py_list_getitem ["setosa"; "versicolor"; "virginica"] p = Ok name /\
       ((0 <= p)%Z ->
        ["setosa"; "versicolor"; "virginica"] !! Z.to_nat p = Some name)).
Proof.
  split.
  - intros request g r Hout Hst.
    destruct (predict_200 request g r Hout Hst) as (p & name & ps & -> & Hname).
    exists {[ "prediction" := PyInt p; "class_name" := PyStr name;
              "probabilities" := PyList (PyFloat <$> ps) ]}, p, name.
    split; [reflexivity|]. split; [reflexivity|]. split; [reflexivity|].
    split; [exact Hname|]. intros Hp. by apply py_list_getitem_nonneg.
  - intros request g b. rewrite app_predict_cases. cbv zeta. unfold outcome.
    destruct (np_array env _) as [a|e]; [|discriminate].
    destruct (clf_predict (app.model g) a) as [p|e]; [|discriminate].
    destruct (clf_predict_proba (app.model g) a) as [ps|e]; [|discriminate].
    destruct (py_list_getitem app.class_names p) as [name|e] eqn:Hname;
      [|discriminate].
    simpl. intros [= <-]. exists p, name.
    split; [reflexivity|]. split; [reflexivity|].
    split; [exact Hname|]. intros Hp. by apply py_list_getitem_nonneg.
Qed.

(** With a classifier at hand the inference block does not depend on
    how the classifier was obtained, and leaves it cached. *)
Lemma run_inference_resolved features (g : cf_globals) clf :
  resolves env g clf ->
  outcome (cloud_function.run_inference env features g) =
    outcome (cloud_function.run_inference env features
               {| cloud_function.model := Some clf |})
  /\ globals_after (cloud_function.run_inference env features g) =
       {| cloud_function.model := Some clf |}.
Proof.
  intros Hres. rewrite !run_inference_cases.
  destruct (load_model_resolves g clf Hres) as (evs & -> & _).
  rewrite (load_model_cached {| cloud_function.model := Some clf |} clf eq_refl).
  cbv zeta. split; destruct_results; reflexivity.
Qed.

(** C2: when the classifier answers, on the array built from the
    features, a class index among 0, 1, 2 and three probabilities that
    sum to one within 1e-6, a request with 4 features is answered 200
    by the serverless handler with a valid result, and the framework
    app's [predict] returns a valid result. *)
Theorem predict_valid_output (clf : Classifier ndarray) (a : ndarray)
    (p : Z) (ps : list float) :
  clf_predict clf a = Ok p ->
  (0 <= p <= 2)%Z ->
  clf_predict_proba clf a = Ok ps ->
  length ps = 3%nat ->
  sums_to_one ps = true ->
  (forall request (g : cf_globals) (d : gmap string pyval) v,
     String.eqb (method request) "OPTIONS" = false ->
     get_json request = PyDict d ->
     d !! "features" = Some v ->
     py_len v = Ok 4%Z ->
     np_array env (PyList [v]) = Ok a ->
     resolves env g clf ->
     exists b : gmap string pyval,
       outcome (cloud_function.predict env request g) =
         Ok {| body := Jsonify (PyDict b); status := 200;
               headers := cloud_function.cors_headers |}
       /\ valid_result b)
  /\
  (forall (request : app.PredictionRequest) (g : app.globals),
     length (app.features request) = 4%nat ->
     np_array env (PyList [PyList (PyFloat <$> app.features request)]) = Ok a ->
     app.model g = clf ->
     exists b : gmap string pyval,
       outcome (app.predict env request g) = Ok b
       /\ valid_result b).
Proof.
  intros Hp Hrange Hps Hlen Hsum.
  assert (exists name, py_list_getitem cloud_function.class_names p = Ok name)
    as [name Hname].
  { assert (p = 0 \/ p = 1 \/ p = 2)%Z as [-> | [-> | ->]] by lia; by eexists. }
  assert (Hvalid : valid_result
            {[ "prediction" := PyInt p; "class_name" := PyStr name;
               "probabilities" := PyList (PyFloat <$> ps) ]}).
  { exists p, ps. split; [reflexivity|]. split; [lia|].
    split; [reflexivity|]. by split. }
  split.
  - intros request g d v Hm Hjson Hd Hfour Ha Hres.
    rewrite (predict_cases request g Hm), predict_try_cases, Hjson.
    rewrite (features_missing_present d _ Hd). simpl. rewrite Hd, Hfour. simpl.
    rewrite run_inference_cases.
    destruct (load_model_resolves g clf Hres) as (evs & -> & _).
    cbv zeta. rewrite Ha, Hp, Hps, Hname.
    eexists. split; [reflexivity|]. exact Hvalid.
  - intros request g _ Ha <-. rewrite app_predict_cases. cbv zeta.
    rewrite Ha, Hp, Hps.
    change app.class_names with (cloud_function.class_names). rewrite Hname.
    eexists. split; [reflexivity|]. exact Hvalid.
Qed.

(** *** The class-name table *)

Lemma class_lookup_out_of_range (p : Z) :
  ~ (-3 <= p <= 2)%Z ->
  py_list_getitem cloud_function.class_names p =
    Raise (IndexError "list index out of range").
Proof.
  intros Hp. unfold py_list_getitem. simpl length.
  change (Z.of_nat 3) with 3%Z.
  destruct (p <? 0)%Z eqn:Hneg.
  - assert ((0 <=? p + 3)%Z = false) as -> by lia. reflexivity.
  - assert ((p <? 3)%Z = false) as -> by lia.
    by rewrite andb_false_r.
Qed.

Lemma class_lookup_in_range (p : Z) :
  (-3 <= p <= 2)%Z ->
  exists name, py_list_getitem cloud_function.class_names p = Ok name.
Proof.
  intros Hp.
  assert (p = -3 \/ p = -2 \/ p = -1 \/ p = 0 \/ p = 1 \/ p = 2)%Z
    as [-> | [-> | [-> | [-> | [-> | ->]]]]] by lia; by eexists.
Qed.

(** C10 (amended): the subscript [class_names[prediction]] succeeds
    exactly for the predictions from -3 to 2, negative ones counting
    from the end of the table.  For a prediction among 0, 1, 2 it is the
    entry at that position in both programs; for a prediction outside
    -3..2 the serverless handler answers 500 with the IndexError, and
    the framework app's [predict] lets the IndexError through. *)
Theorem class_lookup_bounds (p : Z) :
  ((exists name, py_list_getitem cloud_function.class_names p = Ok name)
   <-> (-3 <= p <= 2)%Z)
  /\
  ((0 <= p <= 2)%Z ->
   exists name,
     cloud_function.class_names !! Z.to_nat p = Some name /\
     py_list_getitem cloud_function.class_names p = Ok name /\
     py_list_getitem app.class_names p = Ok name)
  /\
  (~ (-3 <= p <= 2)%Z ->
   (forall request (g : cf_globals) (d : gmap string pyval) v clf a ps,
      String.eqb (method request) "OPTIONS" = false ->
      get_json request = PyDict d ->
      d !! "features" = Some v ->
      py_len v = Ok 4%Z ->
      resolves env g clf ->
      np_array env (PyList [v]) = Ok a ->
      clf_predict clf a = Ok p ->
      clf_predict_proba clf a = Ok ps ->
      exists b : gmap string pyval,
        outcome (cloud_function.predict env request g) =
          Ok {| body := Jsonify (PyDict b); status := 500;
                headers := cloud_function.cors_headers |}
        /\ b !! "error" = Some (PyStr "list index out of range")
        /\ b !! "type" = Some (PyStr "IndexError"))
   /\
   (forall (request : app.PredictionRequest) (g : app.globals) a ps,
      np_array env (PyList [PyList (PyFloat <$> app.features request)]) = Ok a ->
      clf_predict (app.model g) a = Ok p ->
      clf_predict_proba (app.model g) a = Ok ps ->
      outcome (app.predict env request g) =
        Raise (IndexError "list index out of range"))).
Proof.
  split; [|split].
  - split; [|apply class_lookup_in_range].
    intros [name Hname].
    destruct (decide (-3 <= p <= 2)%Z) as [Hp|Hp]; [exact Hp|].
    rewrite (class_lookup_out_of_range p Hp) in Hname. discriminate.
  - intros Hp.
    assert (p = 0 \/ p = 1 \/ p = 2)%Z as [-> | [-> | ->]] by lia;
      eexists; (split; [reflexivity|]); split; reflexivity.
  - intros Hp. split.
    + intros request g d v clf a ps Hm Hjson Hd Hlen Hres Ha Hpred Hps.
      rewrite (predict_cases request g Hm), predict_try_cases, Hjson.
      rewrite (features_missing_present d v Hd). simpl. rewrite Hd, Hlen. simpl.
      rewrite run_inference_cases.
      destruct (load_model_resolves g clf Hres) as (evs & -> & _).
      cbv zeta. rewrite Ha, Hpred, Hps, (class_lookup_out_of_range p Hp).
      eexists. split; [reflexivity|]. split; reflexivity.
    + intros request g a ps Ha Hpred Hps.
      rewrite app_predict_cases. cbv zeta. rewrite Ha, Hpred, Hps.
      change app.class_names with (cloud_function.class_names).
      by rewrite (class_lookup_out_of_range p Hp).
Qed.

(** *** The load cache *)

Lemma joblib_loads_app (evs1 evs2 : list (event ndarray)) :
  joblib_loads (evs1 ++ evs2) = (joblib_loads evs1 + joblib_loads evs2)%nat.
Proof. unfold joblib_loads. by rewrite filter_app, length_app. Qed.

(** What one call of [load_model] does to the cache and how often it
    deserialises, by the state it starts from. *)
Lemma load_model_effects (g : cf_globals) :
  match cloud_function.model g with
  | Some clf =>
      cloud_function.load_model env g = (Ok clf, g, [EvLoadModel])
  | None =>
      joblib_loads (calls (cloud_function.load_model env g)) = 1%nat /\
      match joblib_load env model_path with
      | Ok clf =>
          outcome (cloud_function.load_model env g) = Ok clf /\
          globals_after (cloud_function.load_model env g) =
            {| cloud_function.model := Some clf |}
      | Raise e =>
          outcome (cloud_function.load_model env g) = Raise e /\
          globals_after (cloud_function.load_model env g) = g
      end
  end.
Proof.
  destruct (cloud_function.model g) as [clf|] eqn:Hg.
  - by apply load_model_cached.
  - destruct (joblib_load env model_path) as [clf|e] eqn:Hload.
    + by rewrite (load_model_fresh g clf Hg Hload).
    + by rewrite (load_model_fails g e Hg Hload).
Qed.

Lemma run_inference_effects features (g : cf_globals) :
  joblib_loads (calls (cloud_function.run_inference env features g)) =
    joblib_loads (calls (cloud_function.load_model env g)) /\
  globals_after (cloud_function.run_inference env features g) =
    globals_after (cloud_function.load_model env g).
Proof.
  rewrite run_inference_cases.
  destruct (cloud_function.load_model env g) as [[[clf|e] g1] ev1];
    [|by split].
  cbv zeta. destruct_results; unfold calls, globals_after; simpl;
    rewrite joblib_loads_app; (split; [by rewrite Nat.add_0_r | reflexivity]).
Qed.

(** A request either stops before the inference block, having called
    nothing, or touches the cache exactly as one [load_model] does. *)
Lemma predict_effects request (g : cf_globals) :
  (calls (cloud_function.predict env request g) = [] /\
   globals_after (cloud_function.predict env request g) = g)
  \/
  (joblib_loads (calls (cloud_function.predict env request g)) =
     joblib_loads (calls (cloud_function.load_model env g)) /\
   globals_after (cloud_function.predict env request g) =
     globals_after (cloud_function.load_model env g)).
Proof.
  destruct (String.eqb (method request) "OPTIONS") eqn:Hm.
  - left. unfold cloud_function.predict. rewrite Hm. by split.
  - rewrite (predict_cases request g Hm), predict_try_cases.
    destruct (cloud_function.features_missing _) as [[|]|e]; try (by left).
    destruct (py_getitem _ _) as [v|e]; try (by left).
    destruct (py_len v) as [n|e]; try (by left).
    destruct (negb _); try (by left).
    right. destruct (run_inference_effects v g) as [Hloads Hglob].
    by destruct (cloud_function.run_inference env v g) as [[[r|e] g1] evs].
Qed.

Lemma predict_loaded request (g : cf_globals) clf :
  cloud_function.model g = Some clf ->
  joblib_loads (calls (cloud_function.predict env request g)) = 0%nat /\
  globals_after (cloud_function.predict env request g) = g.
Proof.
  intros Hg.
  destruct (predict_effects request g) as [[-> ->] | [-> ->]]; [by split|].
  by rewrite (load_model_cached g clf Hg).
Qed.

Lemma run_all_cons {S A} (m : M ndarray S A) ms (s : S) :
  run_all (m :: ms) s =
    (outcome (m s) :: outcome (run_all ms (globals_after (m s))),
     globals_after (run_all ms (globals_after (m s))),
     calls (m s) ++ calls (run_all ms (globals_after (m s)))).
Proof.
  simpl. destruct (m s) as [[r s1] ev1].
  unfold outcome, globals_after, calls. simpl.
  by destruct (run_all ms s1) as [[rs s2] ev2].
Qed.

Lemma serve_loaded requests (g : cf_globals) clf :
  cloud_function.model g = Some clf ->
  joblib_loads (calls (run_all (cloud_function.predict env <$> requests) g)) = 0%nat
  /\ globals_after (run_all (cloud_function.predict env <$> requests) g) = g.
Proof.
  intros Hg. induction requests as [|request requests [IHl IHg]]; [by split|].
  rewrite fmap_cons, run_all_cons.
  destruct (predict_loaded request g clf Hg) as [Hloads Hglob].
  unfold calls at 1. unfold globals_after at 1. simpl.
  by rewrite joblib_loads_app, Hloads, Hglob, IHl, IHg.
Qed.

Lemma serve_loads_at_most_once requests (g : cf_globals) clf :
  joblib_load env model_path = Ok clf ->
  (joblib_loads (calls (run_all (cloud_function.predict env <$> requests) g)) <= 1)%nat.
Proof.
  intros Hload. induction requests as [|request requests IH];
    [unfold calls, joblib_loads; simpl; lia|].
  destruct (cloud_function.model g) as [clf'|] eqn:Hg.
  { destruct (serve_loaded (request :: requests) g clf' Hg) as [-> _]. lia. }
  rewrite fmap_cons, run_all_cons. unfold calls at 1. simpl.
  rewrite joblib_loads_app.
  pose proof (load_model_effects g) as Hlm. rewrite Hg, Hload in Hlm.
  destruct Hlm as (Hone & _ & Hafter).
  destruct (predict_effects request g) as [[-> ->] | [-> ->]].
  - exact IH.
  - rewrite Hone, Hafter.
    destruct (serve_loaded requests {| cloud_function.model := Some clf |} clf eq_refl)
      as [-> _].
    lia.
Qed.

Lemma serve_unreadable requests (g : cf_globals) e :
  joblib_load env model_path = Raise e ->
  cloud_function.model g = None ->
  cloud_function.model
    (globals_after (run_all (cloud_function.predict env <$> requests) g)) = None.
Proof.
  intros Hload Hg. induction requests as [|request requests IH]; [exact Hg|].
  rewrite fmap_cons, run_all_cons. unfold globals_after at 1. simpl.
  pose proof (load_model_effects g) as Hlm. rewrite Hg, Hload in Hlm.
  destruct Hlm as (_ & _ & Hafter).
  assert (globals_after (cloud_function.predict env request g) = g) as ->.
  { destruct (predict_effects request g) as [[_ ->] | [_ ->]];
      [reflexivity | exact Hafter]. }
  exact IH.
Qed.

Lemma load_model_repeat (g : cf_globals) clf n :
  cloud_function.model g = Some clf ->
  run_all (replicate n (cloud_function.load_model env)) g =
    (replicate n (Ok clf), g, replicate n EvLoadModel).
Proof.
  intros Hg. induction n as [|n IH]; [reflexivity|].
  simpl. by rewrite (load_model_cached g clf Hg), IH.
Qed.

Lemma app_predict_effects (request : app.PredictionRequest) (g : app.globals) :
  joblib_loads (calls (app.predict env request g)) = 0%nat /\
  globals_after (app.predict env request g) = g.
Proof.
  rewrite app_predict_cases. cbv zeta. destruct_results; by split.
Qed.

Lemma app_serve (requests : list app.PredictionRequest) (g : app.globals) :
  joblib_loads (calls (run_all (app.predict env <$> requests) g)) = 0%nat /\
  globals_after (run_all (app.predict env <$> requests) g) = g.
Proof.
  induction requests as [|request requests [IHl IHg]]; [by split|].
  rewrite fmap_cons, run_all_cons.
  destruct (app_predict_effects request g) as [Hloads Hglob].
  unfold calls at 1. unfold globals_after at 1. simpl.
  by rewrite joblib_loads_app, Hloads, Hglob, IHl, IHg.
Qed.

Lemma joblib_loads_load_model_entries n :
  joblib_loads (replicate n (@EvLoadModel ndarray)) = 0%nat.
Proof. induction n as [|n IH]; [reflexivity|exact IH]. Qed.

Lemma load_model_repeat_readable (g : cf_globals) clf n :
  joblib_load env model_path = Ok clf ->
  (joblib_loads (calls (run_all (replicate n (cloud_function.load_model env)) g))
   <= 1)%nat.
Proof.
  intros Hload.
  destruct (cloud_function.model g) as [clf'|] eqn:Hg.
  { rewrite (load_model_repeat g clf' n Hg). unfold calls. simpl.
    rewrite joblib_loads_load_model_entries. lia. }
  destruct n as [|n]; [unfold calls, joblib_loads; simpl; lia|].
  rewrite replicate_S, run_all_cons, (load_model_fresh g clf Hg Hload).
  unfold calls, globals_after. cbn [fst snd].
  rewrite (load_model_repeat {| cloud_function.model := Some clf |} clf n eq_refl).
  cbn [fst snd]. rewrite joblib_loads_app, joblib_loads_load_model_entries.
  change (joblib_loads [EvLoadModel; EvJoblibLoad model_path]) with 1%nat. lia.
Qed.

Lemma load_model_repeat_unreadable (g : cf_globals) e n :
  joblib_load env model_path = Raise e ->
  cloud_function.model g = None ->
  outcome (run_all (replicate n (cloud_function.load_model env)) g) =
    replicate n (Raise e)
  /\ globals_after (run_all (replicate n (cloud_function.load_model env)) g) = g
  /\ joblib_loads (calls (run_all (replicate n (cloud_function.load_model env)) g))
     = n.
Proof.
  intros Hload Hg. induction n as [|n (IHo & IHg & IHl)]; [by repeat split|].
  rewrite replicate_S, run_all_cons, (load_model_fails g e Hg Hload).
  change (globals_after (Raise e, g, [EvLoadModel; EvJoblibLoad model_path]))
    with g.
  change (outcome (@Raise (Classifier ndarray) e, g,
                   [EvLoadModel; EvJoblibLoad model_path]))
    with (@Raise (Classifier ndarray) e).
  change (calls (@Raise (Classifier ndarray) e, g,
                 [EvLoadModel; EvJoblibLoad model_path]))
    with [@EvLoadModel ndarray; EvJoblibLoad model_path].
  split; [|split].
  - unfold outcome at 1. cbn [fst snd]. by rewrite IHo.
  - unfold globals_after at 1. cbn [fst snd]. exact IHg.
  - unfold calls at 1. cbn [fst snd]. by rewrite joblib_loads_app, IHl.
Qed.

(** C4 (amended): the model is loaded at most once in the life of a
    process whose artifact can be read.  Serverless: two calls of
    [load_model] in a row return what one call returns and leave the
    same cache; after a call that returned a classifier, every later
    call returns that classifier and deserialises nothing; with a
    readable artifact [joblib.load] is called at most once over any
    number of calls of [load_model] and over any run of requests; with
    an unreadable artifact and an empty cache nothing is cached, every
    call raises and each one calls [joblib.load] again.  Framework app:
    importing the module calls [joblib.load] once and no request ever
    calls it. *)
Theorem load_model_at_most_once :
  (forall g : cf_globals,
     let once := cloud_function.load_model env g in
     let twice := cloud_function.load_model env (globals_after once) in
     outcome twice = outcome once /\ globals_after twice = globals_after once)
  /\
  (forall (g : cf_globals) clf,
     outcome (cloud_function.load_model env g) = Ok clf ->
     forall n,
       let g1 := globals_after (cloud_function.load_model env g) in
       let later := run_all (replicate n (cloud_function.load_model env)) g1 in
       outcome later = replicate n (Ok clf) /\
       joblib_loads (calls later) = 0%nat /\
       globals_after later = g1)
  /\
  (forall clf,
     joblib_load env model_path = Ok clf ->
     (forall n (g : cf_globals),
        (joblib_loads
           (calls (run_all (replicate n (cloud_function.load_model env)) g))
         <= 1)%nat) /\
     (forall requests (g : cf_globals),
        (joblib_loads
           (calls (run_all (cloud_function.predict env <$> requests) g))
         <= 1)%nat))
  /\
  (forall e,
     joblib_load env model_path = Raise e ->
     forall n (g : cf_globals),
       cloud_function.model g = None ->
       let tried := run_all (replicate n (cloud_function.load_model env)) g in
       outcome tried = replicate n (Raise e) /\
       globals_after tried = g /\
       joblib_loads (calls tried) = n)
  /\
  (joblib_loads (app.startup env).2 = 1%nat /\
   forall (requests : list app.PredictionRequest) (g : app.globals),
     let served := run_all (app.predict env <$> requests) g in
     joblib_loads (calls served) = 0%nat /\ globals_after served = g).
Proof.
  split; [|split; [|split; [|split]]].
  - intros g once twice. subst once twice.
    pose proof (load_model_effects g) as Hlm.
    destruct (cloud_function.model g) as [clf|] eqn:Hg.
    + rewrite Hlm. unfold globals_after at 1 3. simpl. by rewrite Hlm.
    + destruct Hlm as [_ Hlm].
      destruct (joblib_load env model_path) as [clf|e] eqn:Hload;
        destruct Hlm as [Hout Hglob]; rewrite Hout, Hglob.
      * by rewrite (load_model_cached {| cloud_function.model := Some clf |} clf).
      * by rewrite Hout, Hglob.
  - intros g clf Hok n g1 later. subst later.
    assert (cloud_function.model g1 = Some clf) as Hg1.
    { subst g1. pose proof (load_model_effects g) as Hlm.
      destruct (cloud_function.model g) as [clf'|] eqn:Hg.
      - rewrite Hlm in Hok |- *. unfold outcome in Hok. simpl in Hok.
        injection Hok as ->. exact Hg.
      - destruct Hlm as [_ Hlm].
        destruct (joblib_load env model_path) as [clf'|e];
          destruct Hlm as [Hout Hglob]; rewrite Hout in Hok; [|discriminate].
        injection Hok as ->. by rewrite Hglob. }
    rewrite (load_model_repeat g1 clf n Hg1).
    split; [reflexivity|]. split; [|reflexivity].
    unfold calls. simpl. apply joblib_loads_load_model_entries.
  - intros clf Hload. split.
    + intros n g. by apply (load_model_repeat_readable g clf n).
    + intros requests g. by apply (serve_loads_at_most_once requests g clf).
  - intros e Hload n g Hg tried. subst tried.
    by apply load_model_repeat_unreadable.
  - split.
    + unfold app.startup. by destruct (joblib_load env _).
    + intros requests g served. apply app_serve.
Qed.

(** *** Determinism *)

Lemma predict_outcome_resolved request (g : cf_globals) clf :
  resolves env g clf ->
  outcome (cloud_function.predict env request g) =
    outcome (cloud_function.predict env request
               {| cloud_function.model := Some clf |}).
Proof.
  intros Hres.
  destruct (String.eqb (method request) "OPTIONS") eqn:Hm.
  - unfold cloud_function.predict. by rewrite Hm.
  - rewrite !(predict_cases request _ Hm), !predict_try_cases.
    destruct (cloud_function.features_missing _) as [[|]|e]; try reflexivity.
    destruct (py_getitem _ _) as [v|e]; try reflexivity.
    destruct (py_len v) as [n|e]; try reflexivity.
    destruct (negb _); try reflexivity.
    destruct (run_inference_resolved v g clf Hres) as [Hout _].
    destruct (cloud_function.run_inference env v g) as [[r1 g1] ev1].
    destruct (cloud_function.run_inference env v _) as [[r2 g2] ev2].
    unfold outcome in *. simpl in Hout. subst r2. by destruct r1.
Qed.

Lemma predict_globals request (g : cf_globals) :
  globals_after (cloud_function.predict env request g) = g \/
  (cloud_function.model g = None /\
   exists clf,
     joblib_load env model_path = Ok clf /\
     globals_after (cloud_function.predict env request g) =
       {| cloud_function.model := Some clf |}).
Proof.
  destruct (predict_effects request g) as [[_ ->] | [_ ->]]; [by left|].
  pose proof (load_model_effects g) as Hlm.
  destruct (cloud_function.model g) as [clf|] eqn:Hg.
  - left. by rewrite Hlm.
  - destruct Hlm as [_ Hlm].
    destruct (joblib_load env model_path) as [clf|e]; destruct Hlm as [_ ->].
    + right. split; [reflexivity|]. by exists clf.
    + by left.
Qed.

(** C5: [predict] is deterministic and changes nothing but the load
    cache.  Serverless: a second run of the same request, made in the
    globals the first run left, gives the same answer and leaves those
    globals as they are; the answer is the same from any two states that
    lead to the same classifier, cached or not; and the globals after a
    request are the globals before it, or the empty cache filled with
    the classifier of the artifact.  Framework app: [predict] leaves the
    globals as they are and a second run gives the same outcome. *)
Theorem predict_deterministic :
  (forall request (g : cf_globals),
     let run1 := cloud_function.predict env request g in
     let run2 := cloud_function.predict env request (globals_after run1) in
     outcome run2 = outcome run1 /\ globals_after run2 = globals_after run1)
  /\
  (forall request (g g' : cf_globals) clf,
     resolves env g clf ->
     resolves env g' clf ->
     outcome (cloud_function.predict env request g) =
       outcome (cloud_function.predict env request g'))
  /\
  (forall request (g : cf_globals),
     globals_after (cloud_function.predict env request g) = g \/
     (cloud_function.model g = None /\
      exists clf,
        joblib_load env model_path = Ok clf /\
        globals_after (cloud_function.predict env request g) =
          {| cloud_function.model := Some clf |}))
  /\
  (forall (request : app.PredictionRequest) (g : app.globals),
     let run1 := app.predict env request g in
     let run2 := app.predict env request (globals_after run1) in
     outcome run2 = outcome run1 /\ globals_after run1 = g).
Proof.
  split; [|split; [|split]].
  - intros request g run1 run2. subst run1 run2.
    destruct (predict_globals request g) as [Hsame | (Hg & clf & Hload & ->)];
      [by rewrite !Hsame|].
    split.
    + symmetry. apply predict_outcome_resolved. right. by split.
    + by destruct (predict_loaded request {| cloud_function.model := Some clf |}
                     clf eq_refl) as [_ ->].
  - intros request g g' clf Hres Hres'.
    by rewrite (predict_outcome_resolved request g clf Hres),
               (predict_outcome_resolved request g' clf Hres').
  - apply predict_globals.
  - intros request g run1 run2. subst run1 run2.
    destruct (app_predict_effects request g) as [_ Hsame]. by rewrite !Hsame.
Qed.
End Properties.

(** ** The claims at sample inputs *)

(** C9 at a three-character [features] string: the 400 answer leaves an
    empty log and the empty cache. *)
Lemma validation_error_leaves_cache_witness :
  calls (cloud_function.predict sample.env
           (sample.post (sample.features_body (PyStr "abc"))) sample.unloaded) = []
  /\ globals_after (cloud_function.predict sample.env
           (sample.post (sample.features_body (PyStr "abc"))) sample.unloaded)
     = sample.unloaded.
Proof.
  apply (validation_error_leaves_cache sample.env
           (sample.post (sample.features_body (PyStr "abc"))) sample.unloaded
           (cloud_function.wrong_length_response 3)).
  - vm_compute. reflexivity.
  - reflexivity.
Defined.

(** C1 at a list of 5 floats. *)
Lemma wrong_length_rejected_witness :
  cloud_function.predict sample.env
    (sample.post (sample.features_body
       (PyList (PyFloat <$> sample.setosa_row ++ [1%float]))))
    sample.unloaded =
    (Ok {| body := Jsonify (PyDict
             {[ "error" := PyStr "Features must contain exactly 4 values";
                "received" := PyInt 5 ]});
           status := 400;
           headers := cloud_function.cors_headers |}, sample.unloaded, []).
Proof.
  apply (wrong_length_rejected sample.env
           (sample.post (sample.features_body
              (PyList (PyFloat <$> sample.setosa_row ++ [1%float]))))
           sample.unloaded
           {[ "features" := PyList (PyFloat <$> sample.setosa_row ++ [1%float]) ]}
           (PyList (PyFloat <$> sample.setosa_row ++ [1%float])) 5%Z).
  - reflexivity.
  - reflexivity.
  - vm_compute. reflexivity.
  - reflexivity.
  - lia.
Defined.

(** C1 as stated fails on the framework app: on a row of 3 floats
    [predict] does call the classifier.  With the tree the outcome is
    the classifier's own ValueError, with an estimator that takes any
    row it is an ordinary result; in neither case a 400 with the message
    of the claim. *)
Lemma app_runs_inference_on_three_features :
  app.predict sample.env
    {| app.features := [5.1%float; 3.5%float; 1.4%float] |}
    (sample.imported sample.tree) =
    (Raise sample.wrong_width, sample.imported sample.tree,
     [EvNpArray (PyList [PyList [PyFloat 5.1; PyFloat 3.5; PyFloat 1.4]]);
      EvPredict (PyList [PyList [PyFloat 5.1; PyFloat 3.5; PyFloat 1.4]])])
  /\
  outcome (app.predict (sample.env_with (sample.constant 1))
    {| app.features := [5.1%float; 3.5%float; 1.4%float] |}
    (sample.imported (sample.constant 1))) =
    Ok {[ "prediction" := PyInt 1;
          "class_name" := PyStr "versicolor";
          "probabilities" := PyList [PyFloat 0.2; PyFloat 0.3; PyFloat 0.5] ]}.
Proof. split; vm_compute; reflexivity. Qed.

(** C3 at an object that has other keys only. *)
Lemma missing_features_rejected_witness :
  exists b : gmap string pyval,
    cloud_function.predict sample.env
      (sample.post (PyDict {[ "sepal_length" := PyFloat 5.1 ]})) sample.unloaded =
      (Ok {| body := Jsonify (PyDict b); status := 400;
             headers := cloud_function.cors_headers |}, sample.unloaded, [])
    /\ b !! "error" = Some (PyStr "Missing features in request body").
Proof.
  apply (missing_features_rejected sample.env
           (sample.post (PyDict {[ "sepal_length" := PyFloat 5.1 ]}))
           sample.unloaded).
  - reflexivity.
  - apply lacks_object. vm_compute. reflexivity.
Defined.

(** C3 as stated fails on the serverless handler: a JSON body that is
    the number 5 has no [features] key, and the answer is a 500 that
    carries the TypeError of the membership test. *)
Lemma scalar_body_answered_500 :
  cloud_function.predict sample.env (sample.post (PyInt 5)) sample.unloaded =
    (Ok {| body := Jsonify (PyDict
             {[ "error" := PyStr "argument of type 'int' is not iterable";
                "type" := PyStr "TypeError" ]});
           status := 500;
           headers := cloud_function.cors_headers |},
     sample.unloaded, []).
Proof. vm_compute. reflexivity. Qed.

(** C2 at the row [5.1, 3.5, 1.4, 0.2] with the tree: class 0 and the
    probabilities [1, 0, 0], from a fresh serverless process and from
    the framework app. *)
Lemma predict_valid_output_witness :
  (exists b : gmap string pyval,
     outcome (cloud_function.predict sample.env
                (sample.post (sample.features_body
                   (PyList (PyFloat <$> sample.setosa_row))))
                sample.unloaded) =
       Ok {| body := Jsonify (PyDict b); status := 200;
             headers := cloud_function.cors_headers |}
     /\ valid_result b)
  /\
  (exists b : gmap string pyval,
     outcome (app.predict sample.env {| app.features := sample.setosa_row |}
                (sample.imported sample.tree)) = Ok b
     /\ valid_result b).
Proof.
  pose proof (predict_valid_output sample.env sample.tree
                (PyList [PyList (PyFloat <$> sample.setosa_row)]) 0%Z
                (sample.one_hot 0)) as H.
  destruct H as [Hcf Happ].
  - vm_compute. reflexivity.
  - lia.
  - vm_compute. reflexivity.
  - reflexivity.
  - vm_compute. reflexivity.
  - split.
    + apply (Hcf _ _ {[ "features" := PyList (PyFloat <$> sample.setosa_row) ]}
               (PyList (PyFloat <$> sample.setosa_row))).
      * reflexivity.
      * reflexivity.
      * vm_compute. reflexivity.
      * reflexivity.
      * reflexivity.
      * right. split; reflexivity.
    + apply Happ; reflexivity.
Defined.

(** C4 at a fresh process whose artifact holds the tree: three more
    calls of [load_model] after the first return the tree and
    deserialise nothing. *)
Lemma load_model_at_most_once_witness :
  let g1 := globals_after (cloud_function.load_model sample.env sample.unloaded) in
  let later := run_all (replicate 3 (cloud_function.load_model sample.env)) g1 in
  outcome later = replicate 3 (Ok sample.tree) /\
  joblib_loads (calls later) = 0%nat /\
  globals_after later = g1.
Proof.
  apply (proj1 (proj2 (load_model_at_most_once sample.env))
           sample.unloaded sample.tree).
  reflexivity.
Defined.

(** C4 as stated fails when the artifact cannot be read: the second
    call of [load_model] returns no cached classifier, it raises as the
    first did, and [joblib.load] has been called twice. *)
Lemma unreadable_artifact_loaded_again :
  outcome (run_all (replicate 2 (cloud_function.load_model sample.env_missing))
             sample.unloaded) =
    replicate 2
      (Raise (PyExc "FileNotFoundError"
                "[Errno 2] No such file or directory: '/workspace/model.pkl'"))
  /\ joblib_loads
       (calls (run_all (replicate 2 (cloud_function.load_model sample.env_missing))
                 sample.unloaded)) = 2%nat.
Proof. split; vm_compute; reflexivity. Qed.

(** C5 at the empty and the filled cache: the same request gets the
    same answer. *)
Lemma predict_deterministic_witness :
  outcome (cloud_function.predict sample.env
             (sample.post (sample.features_body
                (PyList (PyFloat <$> sample.setosa_row)))) sample.unloaded) =
  outcome (cloud_function.predict sample.env
             (sample.post (sample.features_body
                (PyList (PyFloat <$> sample.setosa_row)))) sample.loaded).
Proof.
  apply (proj1 (proj2 (predict_deterministic sample.env))
           _ sample.unloaded sample.loaded sample.tree).
  - right. split; reflexivity.
  - left. reflexivity.
Defined.


(** C7 at the 200 answer for the row [5.1, 3.5, 1.4, 0.2]. *)
Lemma class_name_matches_prediction_witness :
  exists (b : gmap string pyval) p name,
    body (cloud_function.prediction_response 0 "setosa" (sample.one_hot 0)) =
      Jsonify (PyDict b) /\
    b !! "prediction" = Some (PyInt p) /\
    b !! "class_name" = Some (PyStr name) /\
    py_list_getitem ["setosa"; "versicolor"; "virginica"] p = Ok name /\
    ((0 <= p)%Z -> ["setosa"; "versicolor"; "virginica"] !! Z.to_nat p = Some name).
Proof.
  apply (proj1 (class_name_matches_prediction sample.env)
           (sample.post (sample.features_body
              (PyList (PyFloat <$> sample.setosa_row)))) sample.unloaded).
  - vm_compute. reflexivity.
  - reflexivity.
Defined.

(** C8 at the four-character string "abcd": not a 400; the string goes
    to numpy and to the classifier. *)
Lemma length_four_forwarded_witness :
  let run := cloud_function.predict sample.env
               (sample.post (sample.features_body (PyStr "abcd"))) sample.unloaded in
  (exists r, outcome run = Ok r /\ status r <> 400%Z) /\
  (exists evs, calls run = EvLoadModel :: evs) /\
  (forall clf, resolves sample.env sample.unloaded clf ->
     EvNpArray (PyList [PyStr "abcd"]) ∈ calls run /\
     forall a, np_array sample.env (PyList [PyStr "abcd"]) = Ok a ->
               EvPredict a ∈ calls run).
Proof.
  apply (length_four_forwarded sample.env
           (sample.post (sample.features_body (PyStr "abcd"))) sample.unloaded
           {[ "features" := PyStr "abcd" ]} (PyStr "abcd")).
  - reflexivity.
  - reflexivity.
  - vm_compute. reflexivity.
  - reflexivity.
Defined.

(** C10 at the prediction 3: the serverless handler answers 500 with
    the IndexError. *)
Lemma class_lookup_bounds_witness :
  exists b : gmap string pyval,
    outcome (cloud_function.predict (sample.env_with (sample.constant 3))
               (sample.post (sample.features_body
                  (PyList (PyFloat <$> sample.setosa_row)))) sample.unloaded) =
      Ok {| body := Jsonify (PyDict b); status := 500;
            headers := cloud_function.cors_headers |}
    /\ b !! "error" = Some (PyStr "list index out of range")
    /\ b !! "type" = Some (PyStr "IndexError").
Proof.
  refine (proj1 (proj2 (proj2 (class_lookup_bounds
            (sample.env_with (sample.constant 3)) 3%Z)) _)
            (sample.post (sample.features_body
               (PyList (PyFloat <$> sample.setosa_row)))) sample.unloaded
            {[ "features" := PyList (PyFloat <$> sample.setosa_row) ]}
            (PyList (PyFloat <$> sample.setosa_row))
            (sample.constant 3)
            (PyList [PyList (PyFloat <$> sample.setosa_row)])
            [0.2%float; 0.3%float; 0.5%float] _ _ _ _ _ _ _ _).
  - lia.
  - reflexivity.
  - reflexivity.
  - vm_compute. reflexivity.
  - reflexivity.
  - right. split; reflexivity.
  - reflexivity.
  - reflexivity.
  - reflexivity.
Defined.

(** C10 as stated fails at the prediction -1, which is not among 0, 1,
    2: the subscript is in bounds and gives the last entry, and the
    serverless handler answers 200 with it. *)
Lemma negative_index_in_bounds :
  py_list_getitem cloud_function.class_names (-1) = Ok "virginica"
  /\ py_list_getitem app.class_names (-1) = Ok "virginica"
  /\ outcome (cloud_function.predict (sample.env_with (sample.constant (-1)))
                (sample.post (sample.features_body
                   (PyList (PyFloat <$> sample.setosa_row)))) sample.unloaded) =
       Ok (cloud_function.prediction_response (-1) "virginica"
             [0.2%float; 0.3%float; 0.5%float])
  /\ status (cloud_function.prediction_response (-1) "virginica"
               [0.2%float; 0.3%float; 0.5%float]) = 200%Z.
Proof. repeat split; vm_compute; reflexivity. Qed.

(** ** Further sample runs *)

(** The row of the spec's example is classified 0, "setosa". *)
Example setosa_row_prediction :
  outcome (app.predict sample.env {| app.features := sample.setosa_row |}
             (sample.imported sample.tree)) =
    Ok {[ "prediction" := PyInt 0;
          "class_name" := PyStr "setosa";
          "probabilities" := PyList [PyFloat 1; PyFloat 0; PyFloat 0] ]}.
Proof. vm_compute. reflexivity. Qed.

(** A list of 3 elements is answered like the string of 3 characters. *)
Example three_elements_rejected :
  cloud_function.predict sample.env
    (sample.post (sample.features_body (PyList [PyInt 1; PyInt 2; PyInt 3])))
    sample.loaded =
    (Ok (cloud_function.wrong_length_response 3), sample.loaded, []).
Proof. vm_compute. reflexivity. Qed.

(** A list of 4 strings passes validation and fails in the classifier. *)
Example four_strings_reach_classifier :
  cloud_function.predict sample.env
    (sample.post (sample.features_body
       (PyList [PyStr "a"; PyStr "b"; PyStr "c"; PyStr "d"])))
    sample.loaded =
    (Ok (cloud_function.error_response sample.not_numeric), sample.loaded,
     [EvLoadModel;
      EvNpArray (PyList [PyList [PyStr "a"; PyStr "b"; PyStr "c"; PyStr "d"]]);
      EvPredict (PyList [PyList [PyStr "a"; PyStr "b"; PyStr "c"; PyStr "d"]])]).
Proof. vm_compute. reflexivity. Qed.

(** With a missing artifact every request that reaches the inference
    block tries the load again. *)
Example missing_artifact_retried :
  joblib_loads (calls (run_all
    (cloud_function.predict sample.env_missing <$>
       replicate 3 (sample.post (sample.features_body
                      (PyList (PyFloat <$> sample.setosa_row)))))
    sample.unloaded)) = 3%nat.
Proof. vm_compute. reflexivity. Qed.

(** The preflight answer. *)
Example options_preflight :
  outcome (cloud_function.predict sample.env
             {| method := "OPTIONS"; get_json := PyNone |} sample.unloaded) =
    Ok {| body := Text EmptyString; status := 204;
          headers := cloud_function.preflight_headers |}.
Proof. reflexivity. Qed.

(** An array body that holds the string "features" passes the
    membership test and fails at the subscript. *)
Example array_body_answered_500 :
  outcome (cloud_function.predict sample.env
             (sample.post (PyList [PyStr "features"])) sample.unloaded) =
    Ok (cloud_function.error_response
          (TypeError "list indices must be integers or slices, not str")).
Proof. vm_compute. reflexivity. Qed.

(** The liveness answer of the framework app. *)
Example health_status :
  app.health !! "status" = Some (PyStr "healthy") /\ size app.health = 1%nat.
Proof. split; vm_compute; reflexivity. Qed.

(** [len] counts code points: two accented letters are 2 characters
    (4 bytes) and are answered 400 with "received": 2. *)
Example two_accented_letters_rejected :
  py_len (PyStr "éé") = Ok 2%Z /\
  cloud_function.predict sample.env
    (sample.post (sample.features_body (PyStr "éé"))) sample.loaded =
    (Ok (cloud_function.wrong_length_response 2), sample.loaded, []).
Proof. split; vm_compute; reflexivity. Qed.

(** A string of 4 characters, one of them accented (5 bytes), passes
    the length test and reaches the classifier. *)
Example four_characters_with_accent_forwarded :
  py_len (PyStr "abcé") = Ok 4%Z /\
  cloud_function.predict sample.env
    (sample.post (sample.features_body (PyStr "abcé"))) sample.loaded =
    (Ok (cloud_function.error_response sample.not_numeric), sample.loaded,
     [EvLoadModel; EvNpArray (PyList [PyStr "abcé"]);
      EvPredict (PyList [PyStr "abcé"])]).
Proof. split; vm_compute; reflexivity. Qed.

(** On a string of 7-bit characters the length is the number of bytes. *)
Lemma str_len_ascii (s : string) :
  Forall (fun c => is_continuation c = false) (list_ascii_of_string s) ->
  str_len s = String.length s.
Proof.
  induction s as [|c s IH]; simpl; [reflexivity|].
  intros [Hc Hs]%Forall_cons. by rewrite Hc, IH.
Qed.

(** A code point outside the basic plane (4 bytes) counts once. *)
Example astral_code_point_counts_once :
  py_len (PyStr "a😀b") = Ok 3%Z.
Proof. reflexivity. Qed.

(** ** Further properties of the two handlers *)

(** Splits a membership in an explicit list into its cases. *)
Ltac in_list H :=
  repeat (apply elem_of_cons in H as [H|H]); try (by apply elem_of_nil in H);
  try subst.

Section Coverage.
Context {ndarray : Type} (env : Env ndarray).

Local Abbreviation cf_globals := (cloud_function.globals (ndarray := ndarray)).
Local Abbreviation model_path := (os_path_join (module_dir env) "model.pkl").

(** *** Shapes of bodies and answers *)

Lemma py_getitem_ok v key x :
  py_getitem v key = Ok x ->
  exists d : gmap string pyval, v = PyDict d /\ d !! key = Some x.
Proof.
  destruct v as [| | | | | |d]; simpl; try discriminate.
  destruct (d !! key) as [y|] eqn:Hd; [|discriminate].
  intros [= <-]. by exists d.
Qed.

Lemma existsb_is_str_forall key (l : list pyval) :
  existsb (is_str key) l = false -> Forall (fun v => v <> PyStr key) l.
Proof.
  induction l as [|v l IH]; simpl; [constructor|].
  intros [Hv Hl]%orb_false_iff. constructor; [|by apply IH].
  intros ->. simpl in Hv. by rewrite String.eqb_refl in Hv.
Qed.

Lemma features_missing_true v :
  cloud_function.features_missing v = Ok true -> lacks_features v.
Proof.
  unfold cloud_function.features_missing.
  destruct v as [|b|z|f|s|l|d]; simpl.
  - intros _. constructor.
  - destruct b; simpl; [discriminate|]. intros _. constructor.
  - destruct (z =? 0)%Z eqn:Hz; simpl; [|discriminate].
    intros _. apply Z.eqb_eq in Hz. subst z. constructor.
  - destruct (PrimFloat.eqb f 0) eqn:Hf; simpl; [|discriminate].
    intros _. by constructor.
  - destruct s as [|c s]; simpl.
    + intros _. by constructor.
    + intros [= H]. constructor. simpl. by apply negb_true_iff in H.
  - destruct l as [|v l]; simpl.
    + intros _. by repeat constructor.
    + intros [= H]. constructor. apply negb_true_iff in H.
      by apply existsb_is_str_forall.
  - destruct (size d =? 0)%nat eqn:Hsz; simpl.
    + intros _. constructor.
      apply Nat.eqb_eq, map_size_empty_iff in Hsz. subst d. apply lookup_empty.
    + destruct (d !! "features") eqn:Hd; [discriminate|]. intros _. by constructor.
Qed.

(** Every answer of the [try] block and its handler is one of four. *)
Lemma predict_answers request (g : cf_globals) :
  String.eqb (method request) "OPTIONS" = false ->
  exists r,
    outcome (cloud_function.predict env request g) = Ok r /\
    (r = cloud_function.missing_features_response \/
     (exists n, r = cloud_function.wrong_length_response n) \/
     (exists p name ps, r = cloud_function.prediction_response p name ps) \/
     (exists e, r = cloud_function.error_response e)).
Proof.
  intros Hm. rewrite (predict_cases env request g Hm), predict_try_cases.
  destruct (cloud_function.features_missing _) as [[|]|e];
    [eexists; split; [reflexivity|]; by left | |
     eexists; split; [reflexivity|]; right; right; right; by eexists].
  destruct (py_getitem _ _) as [v|e];
    [|eexists; split; [reflexivity|]; right; right; right; by eexists].
  destruct (py_len v) as [n|e];
    [|eexists; split; [reflexivity|]; right; right; right; by eexists].
  destruct (negb _);
    [eexists; split; [reflexivity|]; right; left; by eexists|].
  destruct (cloud_function.run_inference env v g) as [[[r|e] g1] evs] eqn:Hrun.
  - exists r. split; [reflexivity|]. right; right; left.
    destruct (run_inference_ok env v g r) as (p & name & ps & -> & _);
      [by rewrite Hrun|]. by exists p, name, ps.
  - eexists; split; [reflexivity|]; right; right; right; by eexists.
Qed.


(** X2: every answer, the preflight one and the error ones included, allows
    any origin; the preflight answer has the four CORS headers and every
    other answer that header alone. *)
Theorem cors_header_on_every_answer request (g : cf_globals) :
  exists r,
    outcome (cloud_function.predict env request g) = Ok r /\
    headers r !! "Access-Control-Allow-Origin" = Some "*" /\
    if String.eqb (method request) "OPTIONS" then
      headers r !! "Access-Control-Allow-Methods" = Some "POST" /\
      headers r !! "Access-Control-Allow-Headers" = Some "Content-Type" /\
      headers r !! "Access-Control-Max-Age" = Some "3600" /\
      size (headers r) = 4%nat
    else headers r = {[ "Access-Control-Allow-Origin" := "*" ]}.
Proof.
  destruct (String.eqb (method request) "OPTIONS") eqn:Hm.
  - unfold cloud_function.predict. rewrite Hm. eexists.
    split; [reflexivity|]. by vm_compute.
  - destruct (predict_answers request g Hm)
      as (r & Hr & [-> | [[n ->] | [(p & name & ps & ->) | [e ->]]]]);
      eexists; (split; [eassumption|]); by split.
Qed.

(** X3: in the answer to a request that is not a preflight, the key "error"
    is there exactly when the status is not 200, "prediction" exactly
    when it is 200, and "type" exactly when it is 500. *)
Theorem error_key_iff_failure request (g : cf_globals) :
  String.eqb (method request) "OPTIONS" = false ->
  exists r (b : gmap string pyval),
    outcome (cloud_function.predict env request g) = Ok r /\
    body r = Jsonify (PyDict b) /\
    (is_Some (b !! "error") <-> status r <> 200%Z) /\
    (is_Some (b !! "prediction") <-> status r = 200%Z) /\
    (is_Some (b !! "type") <-> status r = 500%Z).
Proof.
  intros Hm.
  destruct (predict_answers request g Hm)
    as (r & Hr & [-> | [[n ->] | [(p & name & ps & ->) | [e ->]]]]);
    eexists; eexists; (split; [eassumption|]); (split; [reflexivity|]);
    repeat split; simpl; intros H; try done; try lia;
    try (by eexists); try (destruct H as [x Hx]; by vm_compute in Hx).
Qed.

(** *** Validation, read backwards *)

(** X4: a request that is not a preflight is answered 400 exactly when its
    body lacks [features], or is an object whose [features] value has a
    length other than 4. *)
Theorem bad_request_iff request (g : cf_globals) r :
  String.eqb (method request) "OPTIONS" = false ->
  outcome (cloud_function.predict env request g) = Ok r ->
  (status r = 400%Z <->
   lacks_features (get_json request) \/
   exists (d : gmap string pyval) v n,
     get_json request = PyDict d /\ d !! "features" = Some v /\
     py_len v = Ok n /\ n <> 4%Z).
Proof.
  intros Hm. rewrite (predict_cases env request g Hm), predict_try_cases.
  destruct (cloud_function.features_missing (get_json request))
    as [[|]|e] eqn:Hmiss.
  - intros [= <-]. split; [|reflexivity].
    intros _. left. by apply features_missing_true.
  - assert (Hnot : ~ lacks_features (get_json request)).
    { intros Hl. apply features_missing_lacks in Hl. congruence. }
    destruct (py_getitem (get_json request) "features") as [v|e] eqn:Hget.
    + destruct (py_getitem_ok _ _ _ Hget) as (d & Hjson & Hd).
      destruct (py_len v) as [n|e] eqn:Hlen.
      * destruct (n =? 4)%Z eqn:Hn; simpl.
        -- intros Hout. split.
           ++ intros Hst. exfalso.
              destruct (cloud_function.run_inference env v g)
                as [[[r'|e] g1] evs] eqn:Hrun;
                unfold outcome in Hout; simpl in Hout; injection Hout as <-.
              ** pose proof (run_inference_status env v g r') as Hs.
                 rewrite Hrun in Hs. specialize (Hs eq_refl). lia.
              ** discriminate.
           ++ intros [Hl | (d' & v' & n' & Hjson' & Hd' & Hlen' & Hn')];
                [contradiction|].
              rewrite Hjson in Hjson'. injection Hjson' as <-.
              rewrite Hd in Hd'. injection Hd' as <-.
              rewrite Hlen in Hlen'. injection Hlen' as <-. lia.
        -- intros [= <-]. split; [|reflexivity].
           intros _. right. exists d, v, n. repeat split; try assumption. lia.
      * intros [= <-]. split; [discriminate|].
        intros [Hl | (d' & v' & n' & Hjson' & Hd' & Hlen' & _)]; [contradiction|].
        rewrite Hjson in Hjson'. injection Hjson' as <-.
        rewrite Hd in Hd'. injection Hd' as <-. congruence.
    + intros [= <-]. split; [discriminate|].
      intros [Hl | (d' & v' & n' & Hjson' & Hd' & _)]; [contradiction|].
      rewrite Hjson' in Hget. simpl in Hget. rewrite Hd' in Hget. discriminate.
  - intros [= <-]. split; [discriminate|].
    intros [Hl | (d' & v' & n' & Hjson' & Hd' & _)].
    + apply features_missing_lacks in Hl. congruence.
    + rewrite Hjson', (features_missing_present d' v' Hd') in Hmiss. discriminate.
Qed.

(** X5: a body that is a JSON object is answered 500 only when it has a
    [features] value which either has no length at all or has length 4,
    the failure then coming from the load or the inference. *)
Theorem object_body_500_causes request (g : cf_globals)
    (d : gmap string pyval) r :
  String.eqb (method request) "OPTIONS" = false ->
  get_json request = PyDict d ->
  outcome (cloud_function.predict env request g) = Ok r ->
  status r = 500%Z ->
  exists v,
    d !! "features" = Some v /\
    ((exists e, py_len v = Raise e /\ r = cloud_function.error_response e /\
                calls (cloud_function.predict env request g) = []) \/
     (py_len v = Ok 4%Z /\
      exists e, outcome (cloud_function.run_inference env v g) = Raise e /\
                r = cloud_function.error_response e)).
Proof.
  intros Hm Hjson. rewrite (predict_cases env request g Hm), predict_try_cases, Hjson.
  unfold cloud_function.features_missing, py_contains, py_getitem.
  destruct (negb (py_truthy (PyDict d))); [intros [= <-]; discriminate|].
  destruct (d !! "features") as [v|] eqn:Hd; [|intros [= <-]; discriminate].
  simpl. intros Hout Hst. exists v. split; [reflexivity|].
  destruct (py_len v) as [n|e] eqn:Hlen.
  - destruct (n =? 4)%Z eqn:Hn; simpl in Hout;
      [|injection Hout as <-; discriminate].
    assert (n = 4%Z) as -> by lia. right. split; [reflexivity|].
    destruct (cloud_function.run_inference env v g) as [[[r'|e] g1] evs] eqn:Hrun;
      unfold outcome in Hout; simpl in Hout; injection Hout as <-.
    + pose proof (run_inference_status env v g r') as Hs.
      rewrite Hrun in Hs. specialize (Hs eq_refl). lia.
    + by exists e.
  - injection Hout as <-. left. by exists e.
Qed.

(** X6: a [features] value that has no length ([null], a boolean, a number)
    is answered 500 with the TypeError of [len], before anything is
    loaded or called. *)
Theorem features_without_length request (g : cf_globals)
    (d : gmap string pyval) v :
  String.eqb (method request) "OPTIONS" = false ->
  get_json request = PyDict d ->
  d !! "features" = Some v ->
  (v = PyNone \/ (exists b, v = PyBool b) \/ (exists z, v = PyInt z) \/
   (exists f, v = PyFloat f)) ->
  cloud_function.predict env request g =
    (Ok {| body := Jsonify (PyDict
             {[ "error" := PyStr ("object of type '" +:+ type_name v +:+
                                    "' has no len()");
                "type" := PyStr "TypeError" ]});
           status := 500;
           headers := cloud_function.cors_headers |}, g, []).
Proof.
  intros Hm Hjson Hd Hv.
  rewrite (predict_cases env request g Hm), predict_try_cases, Hjson.
  rewrite (features_missing_present d v Hd). simpl. rewrite Hd.
  by destruct Hv as [-> | [[b ->] | [[z ->] | [f ->]]]].
Qed.

(** *** The load inside a request *)

(** X7: with an empty cache and an artifact that cannot be read, a request
    that passes validation is answered 500 with the exception of
    [joblib.load]; the cache stays empty and neither numpy nor the
    classifier is called. *)
Theorem load_failure_answered_500 request (g : cf_globals)
    (d : gmap string pyval) v e :
  String.eqb (method request) "OPTIONS" = false ->
  get_json request = PyDict d ->
  d !! "features" = Some v ->
  py_len v = Ok 4%Z ->
  cloud_function.model g = None ->
  joblib_load env model_path = Raise e ->
  cloud_function.predict env request g =
    (Ok (cloud_function.error_response e), g,
     [EvLoadModel; EvJoblibLoad model_path]).
Proof.
  intros Hm Hjson Hd Hlen Hg Hload.
  rewrite (predict_cases env request g Hm), predict_try_cases, Hjson.
  rewrite (features_missing_present d v Hd). simpl. rewrite Hd, Hlen. simpl.
  rewrite run_inference_cases, (load_model_fails env g e Hg Hload).
  reflexivity.
Qed.

(** *** What is called, and in which order *)

(** X8: numpy is only ever given a one-row list whose row is the [features]
    value of an object body and has length 4: nothing that failed
    validation reaches the inference. *)
Theorem inference_only_after_validation request (g : cf_globals) arg :
  EvNpArray arg ∈ calls (cloud_function.predict env request g) ->
  String.eqb (method request) "OPTIONS" = false /\
  exists (d : gmap string pyval) v,
    get_json request = PyDict d /\ d !! "features" = Some v /\
    py_len v = Ok 4%Z /\ arg = PyList [v].
Proof.
  destruct (String.eqb (method request) "OPTIONS") eqn:Hm.
  { unfold cloud_function.predict. rewrite Hm. unfold calls, ret. simpl.
    by intros ?%elem_of_nil. }
  rewrite (predict_cases env request g Hm), predict_try_cases.
  destruct (cloud_function.features_missing _) as [[|]|e];
    try (intros H; unfold calls in H; simpl in H; by apply elem_of_nil in H).
  destruct (py_getitem (get_json request) "features") as [v|e] eqn:Hget;
    try (intros H; unfold calls in H; simpl in H; by apply elem_of_nil in H).
  destruct (py_getitem_ok _ _ _ Hget) as (d & Hjson & Hd).
  destruct (py_len v) as [n|e] eqn:Hlen;
    try (intros H; unfold calls in H; simpl in H; by apply elem_of_nil in H).
  destruct (n =? 4)%Z eqn:Hn; simpl;
    try (intros H; unfold calls in H; simpl in H; by apply elem_of_nil in H).
  assert (n = 4%Z) as -> by lia.
  intros Hin. split; [reflexivity|]. exists d, v. repeat split; try assumption.
  rewrite run_inference_cases in Hin.
  pose proof (load_model_effects env g) as Hlm.
  assert (Hload : forall ev, ev ∈ calls (cloud_function.load_model env g) ->
                             is_inference ev = false).
  { intros ev. destruct (cloud_function.model g) as [clf|] eqn:Hg.
    - rewrite Hlm. unfold calls. simpl. by intros ->%list_elem_of_singleton.
    - destruct (joblib_load env model_path) as [clf|e] eqn:Hl.
      + rewrite (load_model_fresh env g clf Hg Hl). unfold calls. simpl.
        intros H. by in_list H.
      + rewrite (load_model_fails env g e Hg Hl). unfold calls. simpl.
        intros H. by in_list H. }
  destruct (cloud_function.load_model env g) as [[[clf|e] g1] ev1].
  - cbv zeta in Hin. unfold calls in Hin, Hload. simpl in Hload.
    assert (Hcases : EvNpArray arg ∈ ev1 \/ arg = PyList [v]).
    { revert Hin. destruct_results; simpl; rewrite elem_of_app;
        intros [?|Hin]; auto; right; in_list Hin; congruence. }
    destruct Hcases as [Hin1 | ->]; [|reflexivity].
    apply Hload in Hin1. discriminate.
  - unfold calls in Hin, Hload. simpl in Hin, Hload.
    apply Hload in Hin. discriminate.
Qed.

Lemma load_model_ok (g : cf_globals) clf :
  outcome (cloud_function.load_model env g) = Ok clf ->
  resolves env g clf /\
  globals_after (cloud_function.load_model env g) =
    {| cloud_function.model := Some clf |}.
Proof.
  pose proof (load_model_effects env g) as Hlm.
  destruct (cloud_function.model g) as [clf'|] eqn:Hg.
  - rewrite Hlm. unfold outcome, globals_after. simpl. intros [= ->].
    split; [by left|]. destruct g as [m]. simpl in Hg. by subst m.
  - destruct Hlm as [_ Hlm].
    destruct (joblib_load env model_path) as [clf'|e] eqn:Hload;
      destruct Hlm as [Hout Hglob]; rewrite Hout; [|discriminate].
    intros [= ->]. split; [by right|assumption].
Qed.

(** X9: for a request that passes validation with a classifier at hand, the
    calls are those of [load_model], then numpy once, then [predict]
    once if the conversion succeeded, then [predict_proba] once if
    [predict] returned. *)
Theorem call_order request (g : cf_globals) (d : gmap string pyval) v clf :
  String.eqb (method request) "OPTIONS" = false ->
  get_json request = PyDict d ->
  d !! "features" = Some v ->
  py_len v = Ok 4%Z ->
  resolves env g clf ->
  calls (cloud_function.predict env request g) =
    calls (cloud_function.load_model env g) ++
    EvNpArray (PyList [v]) ::
    match np_array env (PyList [v]) with
    | Raise _ => []
    | Ok a =>
        EvPredict a ::
        match clf_predict clf a with
        | Raise _ => []
        | Ok _ => [EvPredictProba a]
        end
    end.
Proof.
  intros Hm Hjson Hd Hlen Hres.
  rewrite (predict_cases env request g Hm), predict_try_cases, Hjson.
  rewrite (features_missing_present d v Hd). simpl. rewrite Hd, Hlen. simpl.
  rewrite run_inference_cases.
  destruct (load_model_resolves env g clf Hres) as (evs & -> & _).
  cbv zeta. destruct_results; reflexivity.
Qed.

(** X10: a 200 answer comes from a request that passed validation, and holds
    exactly what the classifier said on the array built from the one
    row: its class index, the table's name for it, its probabilities;
    afterwards that classifier is cached. *)
Theorem ok_answer_reports_classifier request (g : cf_globals) r :
  outcome (cloud_function.predict env request g) = Ok r ->
  status r = 200%Z ->
  exists (d : gmap string pyval) v clf a p name ps,
    get_json request = PyDict d /\ d !! "features" = Some v /\
    py_len v = Ok 4%Z /\
    resolves env g clf /\
    np_array env (PyList [v]) = Ok a /\
    clf_predict clf a = Ok p /\
    clf_predict_proba clf a = Ok ps /\
    py_list_getitem cloud_function.class_names p = Ok name /\
    r = cloud_function.prediction_response p name ps /\
    globals_after (cloud_function.predict env request g) =
      {| cloud_function.model := Some clf |}.
Proof.
  destruct (String.eqb (method request) "OPTIONS") eqn:Hm.
  { unfold cloud_function.predict. rewrite Hm. intros [= <-]. discriminate. }
  rewrite (predict_cases env request g Hm), predict_try_cases.
  destruct (cloud_function.features_missing _) as [[|]|e];
    try (intros [= <-]; discriminate).
  destruct (py_getitem (get_json request) "features") as [v|e] eqn:Hget;
    try (intros [= <-]; discriminate).
  destruct (py_getitem_ok _ _ _ Hget) as (d & Hjson & Hd).
  destruct (py_len v) as [n|e] eqn:Hlen; try (intros [= <-]; discriminate).
  destruct (n =? 4)%Z eqn:Hn; simpl; try (intros [= <-]; discriminate).
  assert (n = 4%Z) as -> by lia.
  rewrite run_inference_cases.
  pose proof (load_model_ok g) as Hok.
  destruct (cloud_function.load_model env g) as [[[clf|e] g1] ev1];
    try (intros [= <-]; discriminate).
  destruct (Hok clf eq_refl) as [Hres Hg1].
  unfold globals_after in Hg1. simpl in Hg1. subst g1. cbv zeta.
  destruct (np_array env _) as [a|e] eqn:Ha; try (intros [= <-]; discriminate).
  destruct (clf_predict clf a) as [p|e] eqn:Hp; try (intros [= <-]; discriminate).
  destruct (clf_predict_proba clf a) as [ps|e] eqn:Hps;
    try (intros [= <-]; discriminate).
  destruct (py_list_getitem _ p) as [name|e] eqn:Hname;
    try (intros [= <-]; discriminate).
  intros [= <-] _. by exists d, v, clf, a, p, name, ps.
Qed.

(** *** The two programs side by side *)

(** X11: on a row of 4 floats and with the same classifier, the serverless
    handler answers what the framework app's [predict] does: its dict as
    a 200 body, or its exception as a 500, after the same calls to
    numpy and the classifier. *)
Theorem deployments_agree request (g : cf_globals) (d : gmap string pyval)
    (row : list float) (ag : app.globals) :
  String.eqb (method request) "OPTIONS" = false ->
  get_json request = PyDict d ->
  d !! "features" = Some (PyList (PyFloat <$> row)) ->
  length row = 4%nat ->
  resolves env g (app.model ag) ->
  let served := app.predict env {| app.features := row |} ag in
  outcome (cloud_function.predict env request g) =
    match outcome served with
    | Ok b => Ok {| body := Jsonify (PyDict b); status := 200;
                    headers := cloud_function.cors_headers |}
    | Raise e => Ok (cloud_function.error_response e)
    end
  /\ calls (cloud_function.predict env request g) =
       calls (cloud_function.load_model env g) ++ calls served.
Proof.
  intros Hm Hjson Hd Hrow Hres served. subst served.
  rewrite (predict_cases env request g Hm), predict_try_cases, Hjson.
  rewrite (features_missing_present d _ Hd). simpl. rewrite Hd. simpl.
  rewrite length_fmap, Hrow. simpl.
  rewrite run_inference_cases, app_predict_cases.
  destruct (load_model_resolves env g _ Hres) as (evs & -> & _).
  cbv zeta. simpl app.features.
  change app.class_names with (cloud_function.class_names).
  destruct (np_array env _) as [a|e]; [|by split].
  destruct (clf_predict (app.model ag) a) as [p|e]; [|by split].
  destruct (clf_predict_proba (app.model ag) a) as [ps|e]; [|by split].
  by destruct (py_list_getitem _ p) as [name|e].
Qed.

(** *** Runs of requests *)

(** X12: the answer to a request does not depend on the requests served
    before it: a run of requests gets, one by one, the answers each
    request would get alone. *)
Theorem answers_history_independent requests (g : cf_globals) :
  outcome (run_all (cloud_function.predict env <$> requests) g) =
    (fun request => outcome (cloud_function.predict env request g)) <$> requests.
Proof.
  revert g. induction requests as [|request requests IH]; intros g; [reflexivity|].
  rewrite !fmap_cons, run_all_cons. unfold outcome at 1. simpl. f_equal.
  rewrite IH. apply list_fmap_ext. intros _ request' _.
  destruct (predict_globals env request g) as [-> | (Hg & clf & Hload & ->)];
    [reflexivity|].
  symmetry. apply predict_outcome_resolved. right. by split.
Qed.

(** X13: the cache moves one way only: after any run of requests the globals
    are the ones before it, or the cache was empty and now holds the
    classifier of the artifact. *)
Theorem cache_one_way requests (g : cf_globals) :
  let served := run_all (cloud_function.predict env <$> requests) g in
  globals_after served = g \/
  (cloud_function.model g = None /\
   exists clf,
     joblib_load env model_path = Ok clf /\
     globals_after served = {| cloud_function.model := Some clf |}).
Proof.
  cbv zeta. revert g.
  induction requests as [|request requests IH]; intros g; [by left|].
  rewrite fmap_cons, run_all_cons. unfold globals_after at 1 3. simpl.
  destruct (predict_globals env request g) as [-> | (Hg & clf & Hload & ->)];
    [apply IH|].
  right. split; [assumption|]. exists clf. split; [assumption|].
  by destruct (IH {| cloud_function.model := Some clf |})
    as [-> | [[=] _]].
Qed.

(** X14: whenever a run of requests calls [joblib.load], the cache was empty
    at the start and the path is the module directory joined with
    "model.pkl". *)
Theorem joblib_load_path_fixed requests (g : cf_globals) path :
  EvJoblibLoad path ∈ calls (run_all (cloud_function.predict env <$> requests) g) ->
  path = model_path /\ cloud_function.model g = None.
Proof.
  assert (Hone : forall request (g : cf_globals),
            EvJoblibLoad path ∈ calls (cloud_function.predict env request g) ->
            path = model_path /\ cloud_function.model g = None).
  { clear g. intros request g Hin.
    destruct (cloud_function.model g) as [clf|] eqn:Hg.
    - destruct (predict_loaded env request g clf Hg) as [Hzero _].
      unfold joblib_loads in Hzero. apply length_zero_iff_nil in Hzero.
      assert (EvJoblibLoad path ∈
                filter (fun ev => is_joblib_load ev = true)
                  (calls (cloud_function.predict env request g))) as Hf
        by (apply list_elem_of_filter; by split).
      rewrite Hzero in Hf. by apply elem_of_nil in Hf.
    - split; [|reflexivity].
      destruct (String.eqb (method request) "OPTIONS") eqn:Hm.
      { unfold cloud_function.predict in Hin. rewrite Hm in Hin.
        unfold calls, ret in Hin. simpl in Hin. by apply elem_of_nil in Hin. }
      rewrite (predict_cases env request g Hm), predict_try_cases in Hin.
      destruct (cloud_function.features_missing _) as [[|]|e];
        try (unfold calls in Hin; simpl in Hin; by apply elem_of_nil in Hin).
      destruct (py_getitem _ _) as [v|e];
        try (unfold calls in Hin; simpl in Hin; by apply elem_of_nil in Hin).
      destruct (py_len v) as [n|e];
        try (unfold calls in Hin; simpl in Hin; by apply elem_of_nil in Hin).
      destruct (negb _);
        try (unfold calls in Hin; simpl in Hin; by apply elem_of_nil in Hin).
      rewrite run_inference_cases in Hin.
      destruct (joblib_load env model_path) as [clf|e] eqn:Hload.
      + rewrite (load_model_fresh env g clf Hg Hload) in Hin. cbv zeta in Hin.
        revert Hin. destruct_results; unfold calls; simpl; intros Hin;
          in_list Hin; congruence.
      + rewrite (load_model_fails env g e Hg Hload) in Hin.
        unfold calls in Hin. simpl in Hin. in_list Hin; congruence. }
  revert g. induction requests as [|request requests IH]; intros g.
  - unfold calls. simpl. by intros ?%elem_of_nil.
  - rewrite fmap_cons, run_all_cons. unfold calls at 1. simpl.
    intros [Hin | Hin]%elem_of_app; [by apply (Hone request)|].
    destruct (IH _ Hin) as [-> Hnone]. split; [reflexivity|].
    destruct (predict_globals env request g) as [Hsame | (Hg & _)];
      [by rewrite Hsame in Hnone | assumption].
Qed.

(** X15: once the classifier is cached the artifact and the module directory
    no longer matter: in two deployments with the same numpy, a request
    served from that cache runs alike, whatever [joblib.load] would now
    do in either. *)
Theorem cached_model_ignores_artifact (env' : Env ndarray) request
    (g : cf_globals) clf :
  cloud_function.model g = Some clf ->
  (forall v, np_array env' v = np_array env v) ->
  cloud_function.predict env' request g = cloud_function.predict env request g.
Proof.
  intros Hg Hnp.
  destruct (String.eqb (method request) "OPTIONS") eqn:Hm.
  { unfold cloud_function.predict. by rewrite Hm. }
  rewrite (predict_cases env request g Hm), (predict_cases env' request g Hm).
  rewrite !predict_try_cases.
  destruct (cloud_function.features_missing _) as [[|]|e]; try reflexivity.
  destruct (py_getitem _ _) as [v|e]; try reflexivity.
  destruct (py_len v) as [n|e]; try reflexivity.
  destruct (negb _); try reflexivity.
  rewrite !run_inference_cases.
  rewrite (load_model_cached env g clf Hg), (load_model_cached env' g clf Hg).
  cbv zeta. by rewrite Hnp.
Qed.

(** *** The framework app's [predict], read backwards *)

Lemma py_floats_fmap (ps : list float) : py_floats (PyFloat <$> ps) = Some ps.
Proof.
  unfold py_floats. by apply mapM_fmap_Some.
Qed.

(** X16: what the framework app's [predict] returns has the three fields of
    the response schema and no other, typed as the schema declares, and
    they hold what the classifier said on the array built from the one
    row and the table's name for the class index. *)
Theorem app_result_conforms (request : app.PredictionRequest)
    (g : app.globals) (b : gmap string pyval) :
  outcome (app.predict env request g) = Ok b ->
  exists a p name ps,
    np_array env (PyList [PyList (PyFloat <$> app.features request)]) = Ok a /\
    clf_predict (app.model g) a = Ok p /\
    clf_predict_proba (app.model g) a = Ok ps /\
    py_list_getitem app.class_names p = Ok name /\
    as_PredictionResponse b =
      Some {| app.prediction := p; app.class_name := name;
              app.probabilities := ps |} /\
    size b = 3%nat.
Proof.
  rewrite app_predict_cases. cbv zeta. unfold outcome.
  destruct (np_array env _) as [a|e]; [|discriminate].
  destruct (clf_predict (app.model g) a) as [p|e] eqn:Hp; [|discriminate].
  destruct (clf_predict_proba (app.model g) a) as [ps|e] eqn:Hps; [|discriminate].
  destruct (py_list_getitem app.class_names p) as [name|e] eqn:Hname;
    [|discriminate].
  simpl. intros [= <-]. exists a, p, name, ps.
  repeat split; try assumption.
  unfold as_PredictionResponse.
  change (_ !! "prediction") with (Some (PyInt p)).
  change (_ !! "class_name") with (Some (PyStr name)).
  change (_ !! "probabilities") with (Some (PyList (PyFloat <$> ps))).
  cbv beta iota. by rewrite py_floats_fmap.
Qed.


(** *** The hint of the 400 answer *)

(** X18: the example body that the "Missing features" answer carries under
    "expected_format" is itself accepted: sent as the body of a request
    it passes validation, so the answer is not a 400. *)
Theorem expected_format_is_accepted request (g : cf_globals) :
  String.eqb (method request) "OPTIONS" = false ->
  match body cloud_function.missing_features_response with
  | Jsonify (PyDict b) => b !! "expected_format"
  | _ => None
  end = Some (get_json request) ->
  exists r,
    outcome (cloud_function.predict env request g) = Ok r /\
    status r <> 400%Z /\
    exists evs, calls (cloud_function.predict env request g) = EvLoadModel :: evs.
Proof.
  intros Hm Hhint.
  assert (Hjson : get_json request =
            PyDict {[ "features" :=
              PyList [PyFloat 5.1; PyFloat 3.5; PyFloat 1.4; PyFloat 0.2] ]}).
  { assert (Some (get_json request) =
            Some (PyDict {[ "features" :=
              PyList [PyFloat 5.1; PyFloat 3.5; PyFloat 1.4; PyFloat 0.2] ]}))
      as Heq by (rewrite <- Hhint; vm_compute; reflexivity).
    by injection Heq. }
  rewrite (predict_cases env request g Hm), predict_try_cases, Hjson.
  assert (Hd : ({[ "features" :=
              PyList [PyFloat 5.1; PyFloat 3.5; PyFloat 1.4; PyFloat 0.2] ]}
              : gmap string pyval) !! "features" =
            Some (PyList [PyFloat 5.1; PyFloat 3.5; PyFloat 1.4; PyFloat 0.2]))
    by apply lookup_singleton_eq.
  rewrite (features_missing_present _ _ Hd). simpl. rewrite Hd. simpl.
  destruct (run_inference_calls_load_model env
              (PyList [PyFloat 5.1; PyFloat 3.5; PyFloat 1.4; PyFloat 0.2]) g)
    as [evs Hevs].
  pose proof (run_inference_status env
              (PyList [PyFloat 5.1; PyFloat 3.5; PyFloat 1.4; PyFloat 0.2]) g) as Hs.
  destruct (cloud_function.run_inference env _ g) as [[[r|e] g1] evs1].
  - exists r. split; [reflexivity|]. specialize (Hs r eq_refl).
    split; [lia|]. by exists evs.
  - eexists. split; [reflexivity|]. split; [simpl; lia|]. by exists evs.
Qed.
End Coverage.

(** ** The further properties at sample inputs *)

(** X3 at a sample request. *)
Lemma error_key_iff_failure_witness :
  exists r (b : gmap string pyval),
    outcome (cloud_function.predict sample.env
               (sample.post (sample.features_body (PyStr "abc")))
               sample.unloaded) = Ok r /\
    body r = Jsonify (PyDict b) /\
    (is_Some (b !! "error") <-> status r <> 200%Z) /\
    (is_Some (b !! "prediction") <-> status r = 200%Z) /\
    (is_Some (b !! "type") <-> status r = 500%Z).
Proof.
  apply (error_key_iff_failure sample.env
           (sample.post (sample.features_body (PyStr "abc"))) sample.unloaded).
  reflexivity.
Defined.

(** X4 at a sample request. *)
Lemma bad_request_iff_witness :
  status (cloud_function.wrong_length_response 3) = 400%Z <->
  lacks_features (get_json (sample.post (sample.features_body (PyStr "abc")))) \/
  exists (d : gmap string pyval) v n,
    get_json (sample.post (sample.features_body (PyStr "abc"))) = PyDict d /\
    d !! "features" = Some v /\ py_len v = Ok n /\ n <> 4%Z.
Proof.
  apply (bad_request_iff sample.env
           (sample.post (sample.features_body (PyStr "abc"))) sample.unloaded).
  - reflexivity.
  - vm_compute. reflexivity.
Defined.

(** X5 at a sample request. *)
Lemma object_body_500_causes_witness :
  exists v,
    ({[ "features" := PyList (PyFloat <$> sample.setosa_row) ]}
       : gmap string pyval) !! "features" = Some v /\
    ((exists e,
        py_len v = Raise e /\
        cloud_function.error_response
          (PyExc "FileNotFoundError"
             "[Errno 2] No such file or directory: '/workspace/model.pkl'") =
          cloud_function.error_response e /\
        calls (cloud_function.predict sample.env_missing
                 (sample.post (sample.features_body
                    (PyList (PyFloat <$> sample.setosa_row))))
                 sample.unloaded) = []) \/
     (py_len v = Ok 4%Z /\
      exists e,
        outcome (cloud_function.run_inference sample.env_missing v
                   sample.unloaded) = Raise e /\
        cloud_function.error_response
          (PyExc "FileNotFoundError"
             "[Errno 2] No such file or directory: '/workspace/model.pkl'") =
          cloud_function.error_response e)).
Proof.
  apply (object_body_500_causes sample.env_missing
           (sample.post (sample.features_body
              (PyList (PyFloat <$> sample.setosa_row))))
           sample.unloaded).
  - reflexivity.
  - reflexivity.
  - vm_compute. reflexivity.
  - reflexivity.
Defined.

(** X6 at a sample request. *)
Lemma features_without_length_witness :
  cloud_function.predict sample.env
    (sample.post (sample.features_body (PyInt 5))) sample.unloaded =
    (Ok {| body := Jsonify (PyDict
             {[ "error" := PyStr ("object of type '" +:+ type_name (PyInt 5) +:+
                                    "' has no len()");
                "type" := PyStr "TypeError" ]});
           status := 500;
           headers := cloud_function.cors_headers |}, sample.unloaded, []).
Proof.
  apply (features_without_length sample.env
           (sample.post (sample.features_body (PyInt 5))) sample.unloaded
           {[ "features" := PyInt 5 ]}).
  - reflexivity.
  - reflexivity.
  - vm_compute. reflexivity.
  - right. right. left. by exists 5%Z.
Defined.

(** X7 at a sample request. *)
Lemma load_failure_answered_500_witness :
  cloud_function.predict sample.env_missing
    (sample.post (sample.features_body (PyList (PyFloat <$> sample.setosa_row))))
    sample.unloaded =
    (Ok (cloud_function.error_response
           (PyExc "FileNotFoundError"
              "[Errno 2] No such file or directory: '/workspace/model.pkl'")),
     sample.unloaded,
     [EvLoadModel;
      EvJoblibLoad (os_path_join (module_dir sample.env_missing) "model.pkl")]).
Proof.
  apply (load_failure_answered_500 sample.env_missing
           (sample.post (sample.features_body
              (PyList (PyFloat <$> sample.setosa_row))))
           sample.unloaded
           {[ "features" := PyList (PyFloat <$> sample.setosa_row) ]}
           (PyList (PyFloat <$> sample.setosa_row))).
  - reflexivity.
  - reflexivity.
  - vm_compute. reflexivity.
  - reflexivity.
  - reflexivity.
  - reflexivity.
Defined.

(** X8 at a sample request. *)
Lemma inference_only_after_validation_witness :
  String.eqb (method (sample.post (sample.features_body (PyStr "abcd"))))
    "OPTIONS" = false /\
  exists (d : gmap string pyval) v,
    get_json (sample.post (sample.features_body (PyStr "abcd"))) = PyDict d /\
    d !! "features" = Some v /\
    py_len v = Ok 4%Z /\ PyList [PyStr "abcd"] = PyList [v].
Proof.
  apply (inference_only_after_validation sample.env
           (sample.post (sample.features_body (PyStr "abcd"))) sample.unloaded).
  vm_compute. repeat constructor.
Defined.

(** X9 at a sample request. *)
Lemma call_order_witness :
  calls (cloud_function.predict sample.env
           (sample.post (sample.features_body (PyStr "abcd"))) sample.unloaded) =
    calls (cloud_function.load_model sample.env sample.unloaded) ++
    EvNpArray (PyList [PyStr "abcd"]) ::
    match np_array sample.env (PyList [PyStr "abcd"]) with
    | Raise _ => []
    | Ok a =>
        EvPredict a ::
        match clf_predict sample.tree a with
        | Raise _ => []
        | Ok _ => [EvPredictProba a]
        end
    end.
Proof.
  apply (call_order sample.env
           (sample.post (sample.features_body (PyStr "abcd"))) sample.unloaded
           {[ "features" := PyStr "abcd" ]}).
  - reflexivity.
  - reflexivity.
  - vm_compute. reflexivity.
  - reflexivity.
  - right. split; reflexivity.
Defined.

(** X10 at a sample request. *)
Lemma ok_answer_reports_classifier_witness :
  exists (d : gmap string pyval) v clf a p name ps,
    get_json (sample.post (sample.features_body
                (PyList (PyFloat <$> sample.setosa_row)))) = PyDict d /\
    d !! "features" = Some v /\
    py_len v = Ok 4%Z /\
    resolves sample.env sample.unloaded clf /\
    np_array sample.env (PyList [v]) = Ok a /\
    clf_predict clf a = Ok p /\
    clf_predict_proba clf a = Ok ps /\
    py_list_getitem cloud_function.class_names p = Ok name /\
    cloud_function.prediction_response 0 "setosa" (sample.one_hot 0) =
      cloud_function.prediction_response p name ps /\
    globals_after (cloud_function.predict sample.env
                     (sample.post (sample.features_body
                        (PyList (PyFloat <$> sample.setosa_row))))
                     sample.unloaded) =
      {| cloud_function.model := Some clf |}.
Proof.
  apply (ok_answer_reports_classifier sample.env
           (sample.post (sample.features_body
              (PyList (PyFloat <$> sample.setosa_row)))) sample.unloaded).
  - vm_compute. reflexivity.
  - reflexivity.
Defined.

(** X11 at a sample request. *)
Lemma deployments_agree_witness :
  let served := app.predict sample.env {| app.features := sample.setosa_row |}
                  (sample.imported sample.tree) in
  outcome (cloud_function.predict sample.env
             (sample.post (sample.features_body
                (PyList (PyFloat <$> sample.setosa_row)))) sample.unloaded) =
    match outcome served with
    | Ok b => Ok {| body := Jsonify (PyDict b); status := 200;
                    headers := cloud_function.cors_headers |}
    | Raise e => Ok (cloud_function.error_response e)
    end
  /\ calls (cloud_function.predict sample.env
              (sample.post (sample.features_body
                 (PyList (PyFloat <$> sample.setosa_row)))) sample.unloaded) =
       calls (cloud_function.load_model sample.env sample.unloaded) ++ calls served.
Proof.
  apply (deployments_agree sample.env
           (sample.post (sample.features_body
              (PyList (PyFloat <$> sample.setosa_row)))) sample.unloaded
           {[ "features" := PyList (PyFloat <$> sample.setosa_row) ]}
           sample.setosa_row (sample.imported sample.tree)).
  - reflexivity.
  - reflexivity.
  - vm_compute. reflexivity.
  - reflexivity.
  - right. split; reflexivity.
Defined.

(** X14 at a sample request. *)
Lemma joblib_load_path_fixed_witness :
  "/workspace/model.pkl" = os_path_join (module_dir sample.env) "model.pkl" /\
  cloud_function.model sample.unloaded = None.
Proof.
  apply (joblib_load_path_fixed sample.env
           [sample.post (sample.features_body (PyStr "abc"));
            sample.post (sample.features_body
              (PyList (PyFloat <$> sample.setosa_row)))]
           sample.unloaded "/workspace/model.pkl").
  vm_compute. repeat constructor.
Defined.

(** X15 at a sample request. *)
Lemma cached_model_ignores_artifact_witness :
  cloud_function.predict sample.env_missing
    (sample.post (sample.features_body (PyList (PyFloat <$> sample.setosa_row))))
    sample.loaded =
  cloud_function.predict sample.env
    (sample.post (sample.features_body (PyList (PyFloat <$> sample.setosa_row))))
    sample.loaded.
Proof.
  apply (cached_model_ignores_artifact sample.env sample.env_missing
           (sample.post (sample.features_body
              (PyList (PyFloat <$> sample.setosa_row))))
           sample.loaded sample.tree).
  - reflexivity.
  - intros v. reflexivity.
Defined.

(** X16 at a sample request. *)
Lemma app_result_conforms_witness :
  exists a p name ps,
    np_array sample.env (PyList [PyList (PyFloat <$> sample.setosa_row)]) = Ok a /\
    clf_predict sample.tree a = Ok p /\
    clf_predict_proba sample.tree a = Ok ps /\
    py_list_getitem app.class_names p = Ok name /\
    as_PredictionResponse
      {[ "prediction" := PyInt 0; "class_name" := PyStr "setosa";
         "probabilities" := PyList (PyFloat <$> sample.one_hot 0) ]} =
      Some {| app.prediction := p; app.class_name := name;
              app.probabilities := ps |} /\
    size ({[ "prediction" := PyInt 0; "class_name" := PyStr "setosa";
             "probabilities" := PyList (PyFloat <$> sample.one_hot 0) ]}
            : gmap string pyval) = 3%nat.
Proof.
  apply (app_result_conforms sample.env {| app.features := sample.setosa_row |}
           (sample.imported sample.tree)).
  vm_compute. reflexivity.
Defined.


(** X18 at a sample request. *)
Lemma expected_format_is_accepted_witness :
  exists r,
    outcome (cloud_function.predict sample.env
               (sample.post (sample.features_body
                  (PyList (PyFloat <$> sample.setosa_row))))
               sample.unloaded) = Ok r /\
    status r <> 400%Z /\
    exists evs,
      calls (cloud_function.predict sample.env
               (sample.post (sample.features_body
                  (PyList (PyFloat <$> sample.setosa_row))))
               sample.unloaded) = EvLoadModel :: evs.
Proof.
  apply (expected_format_is_accepted sample.env
           (sample.post (sample.features_body
              (PyList (PyFloat <$> sample.setosa_row)))) sample.unloaded).
  - reflexivity.
  - vm_compute. reflexivity.
Defined.
